(** * The researcher agent: schemas.py and run.py

    A shallow embedding of [src/ai_researcher_agent/schemas.py] (the pydantic
    models) and [src/ai_researcher_agent/run.py] (the [ResearcherAgent] class
    and the [run] entry point), followed by the properties of the pipeline
    they build.

    The third-party collaborators (pydantic's lax coercions, the wall clock,
    [crew.kickoff()]) are fields of an environment record; every theorem
    quantifies over it. *)

From Stdlib Require Import Ascii String DecimalString QArith.
From stdpp Require Import gmap strings list fin_maps.

Local Open Scope string_scope.
Set Warnings "-register-all".


(** ** Text *)

Module Text.

Definition nl : string := String "010"%char EmptyString.
Definition dq : string := String "034"%char EmptyString.

Fixpoint spaces (n : nat) : string :=
  match n with
  | O => EmptyString
  | S k => String " "%char (spaces k)
  end.

Fixpoint starts_with (p s : string) : bool :=
  match p, s with
  | EmptyString, _ => true
  | String a p', String b s' => if Ascii.eqb a b then starts_with p' s' else false
  | String _ _, EmptyString => false
  end.

(** Python's [needle in haystack] on text. *)
Fixpoint contains (needle haystack : string) : bool :=
  starts_with needle haystack
  || match haystack with
     | EmptyString => false
     | String _ rest => contains needle rest
     end.

Definition is_digit (c : ascii) : bool :=
  let n := nat_of_ascii c in (48 <=? n)%nat && (n <=? 57)%nat.

Fixpoint all_digits (s : string) : bool :=
  match s with
  | EmptyString => true
  | String c s' => is_digit c && all_digits s'
  end.

End Text.

(** ** schemas.py: the declared models *)

Module schemas.

Record ResearchTopic := {
  topic : string;
  context : option string;
  depth : option string;
  research_objective : option string;
  specific_focus : option string
}.

Record InputSchema := {
  research_topic : ResearchTopic;
  max_sources : option Z;
  include_citations : option bool
}.

End schemas.

Abbreviation ResearchTopic := schemas.ResearchTopic.
Abbreviation InputSchema := schemas.InputSchema.

(** ** Python values *)

(** The fragment of Python values that reaches this code: what a request
    dictionary may hold and what a stage result may be. [PyTopic] is an
    instance of the [ResearchTopic] model. *)
Inductive pyval :=
| PyNone
| PyBool (b : bool)
| PyInt (z : Z)
| PyStr (s : string)
| PyList (l : list pyval)
| PyDict (d : gmap string pyval)
| PyTopic (t : ResearchTopic).

(** [schemas.py], class [ResearchOutput]: three fields of type [dict].
    [run.py] neither imports the class nor builds an instance. *)
Record ResearchOutput := {
  keyword_analysis : gmap string pyval;
  search_analysis : gmap string pyval;
  final_recommendations : gmap string pyval
}.

Definition is_mapping (v : pyval) : bool :=
  match v with
  | PyDict _ => true
  | _ => false
  end.

Definition empty_dict : pyval := PyDict ∅.

(** [format(v, "")] for the optional text fields of a [ResearchTopic]:
    [None] prints as the four letters None. *)
Definition format_optional (o : option string) : string :=
  match o with
  | Some s => s
  | None => "None"
  end.

(** ** Exceptions and results *)

(** Exceptions by where they come from: [ValidationError] out of pydantic,
    with the locations it reports; [AttributeError] out of an attribute
    lookup; [StageExecutionError] for whatever ends [crew.kickoff()];
    [Raised] for what a [get] method of the crew output raises, with
    whether its class derives from [Exception]. *)
Inductive exn :=
| ValidationError (locs : list (list string))
| AttributeError (obj attr : string)
| StageExecutionError (what : string)
| Raised (cls : string) (is_exception : bool).

(** [except Exception] does not catch what derives from [BaseException]
    only. *)
Definition caught_by_except_Exception (e : exn) : bool :=
  match e with
  | Raised _ b => b
  | _ => true
  end.

Inductive result (A : Type) :=
| Ok (a : A)
| Raise (e : exn).
Arguments Ok {A} a.
Arguments Raise {A} e.

Definition is_ValidationError {A} (r : result A) : bool :=
  match r with
  | Raise (ValidationError _) => true
  | _ => false
  end.

Definition returns {A} (r : result A) : bool :=
  match r with
  | Ok _ => true
  | Raise _ => false
  end.

(** ** pydantic: validating a keyword dictionary against a model *)

(** What pydantic does with a value that is not already of the declared
    type (its lax coercion table) differs between releases and is not
    part of this repository. *)
Record Coercions := {
  lax_str : pyval -> option string;
  lax_int : pyval -> option Z;
  lax_bool : pyval -> option bool
}.

Module pydantic.
Section Validators.

Variable C : Coercions.

Definition str_field (v : pyval) : option string :=
  match v with
  | PyStr s => Some s
  | PyNone => None
  | _ => lax_str C v
  end.

Definition int_field (v : pyval) : option Z :=
  match v with
  | PyInt z => Some z
  | PyNone => None
  | _ => lax_int C v
  end.

Definition bool_field (v : pyval) : option bool :=
  match v with
  | PyBool b => Some b
  | PyNone => None
  | _ => lax_bool C v
  end.

(** [Optional[T]]: [None] is a value of the field. *)
Definition optional {A} (check : pyval -> option A) (v : pyval) : option (option A) :=
  match v with
  | PyNone => Some None
  | _ => Some <$> check v
  end.

(** [Field(...)]: the key has to be there. *)
Definition required {A} (check : pyval -> option A)
    (kw : gmap string pyval) (name : string) : option A :=
  kw !! name ≫= check.

(** [Field(default)]: the default stands in for a missing key only. *)
Definition with_default {A} (check : pyval -> option A) (dflt : A)
    (kw : gmap string pyval) (name : string) : option A :=
  match kw !! name with
  | None => Some dflt
  | Some v => check v
  end.

Definition loc_if_failed {A} (name : string) (o : option A) : list (list string) :=
  match o with
  | None => [[name]]
  | Some _ => []
  end.

(** [ResearchTopic] called with the keyword arguments [kw]: every field is checked, the locations of
    all failures are reported together; keys that name no field are
    ignored. *)
Definition ResearchTopic_init (kw : gmap string pyval)
  : list (list string) + ResearchTopic :=
  let f_topic := required str_field kw "topic" in
  let f_context := with_default (optional str_field) None kw "context" in
  let f_depth := with_default (optional str_field) (Some "comprehensive") kw "depth" in
  let f_objective := with_default (optional str_field) None kw "research_objective" in
  let f_focus := with_default (optional str_field) None kw "specific_focus" in
  match f_topic, f_context, f_depth, f_objective, f_focus with
  | Some t, Some c, Some d, Some o, Some f =>
      inr {| schemas.topic := t; schemas.context := c; schemas.depth := d;
             schemas.research_objective := o; schemas.specific_focus := f |}
  | _, _, _, _, _ =>
      inl (loc_if_failed "topic" f_topic ++ loc_if_failed "context" f_context
           ++ loc_if_failed "depth" f_depth
           ++ loc_if_failed "research_objective" f_objective
           ++ loc_if_failed "specific_focus" f_focus)%list
  end.

(** A field of type [ResearchTopic] takes an instance as it is and a
    dictionary through [ResearchTopic_init]. *)
Definition topic_field (v : pyval) : list (list string) + ResearchTopic :=
  match v with
  | PyTopic t => inr t
  | PyDict kw => ResearchTopic_init kw
  | _ => inl [[]]
  end.

(** [InputSchema] called with the keyword arguments [kw]. *)
Definition InputSchema_init (kw : gmap string pyval)
  : list (list string) + InputSchema :=
  let f_topic :=
    match kw !! "research_topic" with
    | None => inl [[]]
    | Some v => topic_field v
    end in
  let f_sources := with_default (optional int_field) (Some 5%Z) kw "max_sources" in
  let f_citations := with_default (optional bool_field) (Some true) kw "include_citations" in
  match f_topic, f_sources, f_citations with
  | inr t, Some m, Some c =>
      inr {| schemas.research_topic := t; schemas.max_sources := m;
             schemas.include_citations := c |}
  | _, _, _ =>
      inl (match f_topic with
           | inl locs => map (cons "research_topic") locs
           | inr _ => []
           end
           ++ loc_if_failed "max_sources" f_sources
           ++ loc_if_failed "include_citations" f_citations)%list
  end.

End Validators.
End pydantic.

(** ** datetime *)

Module datetime.

Record datetime := {
  year : N;
  month : N;
  day : N;
  hour : N;
  minute : N;
  second : N
}.

Definition decimal (n : N) : string :=
  DecimalString.NilEmpty.string_of_uint (N.to_uint n).

Fixpoint zeros (n : nat) : string :=
  match n with
  | O => EmptyString
  | S k => String "0"%char (zeros k)
  end.

(** A number printed in at least [w] columns, zero-padded on the left. *)
Definition zfill (w : nat) (n : N) : string :=
  let s := decimal n in zeros (w - String.length s) +:+ s.

(** [d.strftime("%Y%m%d_%H%M%S")]. *)
Definition strftime (d : datetime) : string :=
  zfill 4 (year d) +:+ zfill 2 (month d) +:+ zfill 2 (day d) +:+ "_"
  +:+ zfill 2 (hour d) +:+ zfill 2 (minute d) +:+ zfill 2 (second d).

(** The dates a running clock hands out: the ranges [datetime] enforces,
    with a year of four digits. Below the year 1000 the C libraries
    disagree on whether [%Y] pads with zeros; [zfill 4] is what all of them
    print from 1000 on. *)
Definition plausible (d : datetime) : Prop :=
  (1000 <= year d <= 9999 /\ 1 <= month d <= 12 /\ 1 <= day d <= 31
   /\ hour d <= 23 /\ minute d <= 59 /\ second d <= 59)%N.

(** The shape YYYYMMDD_HHMMSS: eight digits, an underscore, six digits. *)
Definition is_timestamp (s : string) : bool :=
  (String.length s =? 15)%nat
  && Text.all_digits (substring 0 8 s)
  && String.eqb (substring 8 1 s) "_"
  && Text.all_digits (substring 9 6 s).

End datetime.

Abbreviation datetime := datetime.datetime.

(** ** crewai: the objects the agent builds *)

Inductive tool_class := SerperDevTool | FileReadTool | FileWriteTool.

(** Objects built at run time carry the address they were allocated at,
    so that two fields holding one object can be told from two fields
    holding equal objects. *)
Record Tool := { tool_addr : nat; tool_is : tool_class }.

Record ChatOpenAI := { llm_addr : nat; model_name : string; temperature : Q }.

Record Agent := {
  role : string;
  goal : string;
  backstory : string;
  tools : list Tool;
  llm : ChatOpenAI;
  verbose : bool
}.

Inductive Task :=
  mkTask (description : string) (agent : Agent) (context : list Task)
         (output_file : string).

Definition description (t : Task) : string :=
  let 'mkTask d _ _ _ := t in d.
Definition agent (t : Task) : Agent :=
  let 'mkTask _ a _ _ := t in a.
Definition context (t : Task) : list Task :=
  let 'mkTask _ _ c _ := t in c.
Definition output_file (t : Task) : string :=
  let 'mkTask _ _ _ f := t in f.

Inductive Process := sequential | hierarchical.

Record Crew := {
  agents : list Agent;
  tasks : list Task;
  crew_verbose : bool;
  process : Process
}.

(** What [crew.kickoff()] hands back, seen through the one thing
    [research] does with it, calling [result.get(key, default)]: a
    dictionary; an object of class [cls] that has no [get] (text, a
    crewai [CrewOutput]); or an object with a [get] method of its own. *)
Inductive crew_output :=
| OutDict (d : gmap string pyval)
| OutOpaque (cls : string)
| OutObject (get : string -> pyval -> result pyval).

Definition result_get (r : crew_output) (key : string) (default : pyval)
  : result pyval :=
  match r with
  | OutDict d => Ok (match d !! key with Some v => v | None => default end)
  | OutOpaque cls => Raise (AttributeError cls "get")
  | OutObject get => get key default
  end.

(** ** naptha_sdk: the run input *)

(** Modelled from the spec: [naptha_sdk.schemas.AgentRunInput] and the
    deployment descriptor it carries are not in this repository; the
    language-model configuration is a model identifier and a temperature,
    and [inputs] is a dictionary, a model instance, text or nothing. *)
Module naptha_sdk.

Record LLMConfig := { model : string; temperature : Q }.
Record AgentConfig := { llm_config : LLMConfig }.
Record AgentDeployment := { agent_config : AgentConfig }.

Inductive run_inputs :=
| InputsDict (kw : gmap string pyval)
| InputsModel (p : InputSchema)
| InputsText (s : string)
| InputsNone.

Record AgentRunInput := {
  inputs : run_inputs;
  agent_deployment : AgentDeployment;
  consumer_id : string
}.

End naptha_sdk.

Abbreviation LLMConfig := naptha_sdk.LLMConfig.
Abbreviation AgentRunInput := naptha_sdk.AgentRunInput.
Abbreviation run_inputs := naptha_sdk.run_inputs.
Abbreviation InputsDict := naptha_sdk.InputsDict.
Abbreviation InputsModel := naptha_sdk.InputsModel.
Abbreviation InputsText := naptha_sdk.InputsText.
Abbreviation InputsNone := naptha_sdk.InputsNone.

(** [isinstance(i, dict)]. *)
Definition is_dict (i : run_inputs) : bool :=
  match i with
  | InputsDict _ => true
  | _ => false
  end.

(** [i.research_topic]. *)
Definition get_research_topic (i : run_inputs) : result ResearchTopic :=
  match i with
  | InputsModel p => Ok (schemas.research_topic p)
  | InputsDict _ => Raise (AttributeError "dict" "research_topic")
  | InputsText _ => Raise (AttributeError "str" "research_topic")
  | InputsNone => Raise (AttributeError "NoneType" "research_topic")
  end.

(** ** The environment and the effects of a run *)

(** What a run finds around it. [coercions] is the pydantic at hand;
    [clock n] is what the wall clock shows when it is read for the [n]-th
    time; [kickoff] is [crew.kickoff()]: either the crew's output, or a
    word on the failure that ended a stage, which [research] lets
    through. *)
Record Env := {
  coercions : Coercions;
  clock : nat -> datetime;
  kickoff : Crew -> string + crew_output
}.

Inductive event :=
| EvTool (t : Tool)
| EvLLM (l : ChatOpenAI)
| EvAgent (a : Agent)
| EvValidate (kw : gmap string pyval)
| EvNow (d : datetime)
| EvTask (t : Task)
| EvKickoff (c : Crew)
| EvLogError (e : exn).

Record world := {
  trace : list event;
  allocated : nat;
  clock_reads : nat
}.

Definition boot : world := {| trace := []; allocated := 0; clock_reads := 0 |}.

Definition M (A : Type) : Type := world -> world * result A.

Definition ret {A} (a : A) : M A := fun w => (w, Ok a).

Definition raise {A} (e : exn) : M A := fun w => (w, Raise e).

Definition bind {A B} (m : M A) (k : A -> M B) : M B :=
  fun w =>
    match m w with
    | (w', Ok a) => k a w'
    | (w', Raise e) => (w', Raise e)
    end.

Notation "x <- m ;; k" := (bind m (fun x => k))
  (at level 100, m at next level, right associativity).
Notation "m ;;; k" := (bind m (fun _ => k))
  (at level 100, right associativity).

Definition emit (ev : event) : M unit :=
  fun w => ({| trace := trace w ++ [ev]; allocated := allocated w;
               clock_reads := clock_reads w |}, Ok tt).

Definition alloc : M nat :=
  fun w => ({| trace := trace w; allocated := S (allocated w);
               clock_reads := clock_reads w |}, Ok (allocated w)).

Definition lift {A} (r : result A) : M A := fun w => (w, r).

(** ** run.py *)

Record ResearcherAgent := {
  module_run : AgentRunInput;
  llm_config : LLMConfig;
  search_tool : Tool;
  file_read : Tool;
  file_write : Tool;
  keyword_researcher : Agent;
  search_analyst : Agent;
  insights_compiler : Agent
}.

Definition new_tool (cls : tool_class) : M Tool :=
  a <- alloc ;;
  let t := {| tool_addr := a; tool_is := cls |} in
  emit (EvTool t) ;;; ret t.

Definition new_ChatOpenAI (name : string) (temp : Q) : M ChatOpenAI :=
  a <- alloc ;;
  let l := {| llm_addr := a; model_name := name; temperature := temp |} in
  emit (EvLLM l) ;;; ret l.

Definition new_Agent (a : Agent) : M Agent := emit (EvAgent a) ;;; ret a.

Definition new_Task (t : Task) : M Task := emit (EvTask t) ;;; ret t.

(** [ResearcherAgent.setup_tools]. *)
Definition setup_tools : M (Tool * Tool * Tool) :=
  search <- new_tool SerperDevTool ;;
  reader <- new_tool FileReadTool ;;
  writer <- new_tool FileWriteTool ;;
  ret (search, reader, writer).

Definition keyword_researcher_backstory : string :=
  "Expert keyword research specialist with deep understanding of search behavior "
  +:+ Text.nl +:+ Text.spaces 24
  +:+ "and semantic analysis. Skilled at breaking down topics into relevant search terms.".

Definition search_analyst_backstory : string :=
  "Analytical expert specializing in evaluating search results and identifying "
  +:+ Text.nl +:+ Text.spaces 24
  +:+ "patterns in successful queries.".

Definition insights_compiler_backstory : string :=
  "Research synthesis specialist who excels at organizing insights into clear, "
  +:+ Text.nl +:+ Text.spaces 24
  +:+ "actionable recommendations.".

(** [ResearcherAgent.setup_agents]. *)
Definition setup_agents (search : Tool) : M (Agent * Agent * Agent) :=
  llm <- new_ChatOpenAI "gpt-4o" (7 # 10) ;;
  kr <- new_Agent
          {| role := "Expert Keyword Research Specialist";
             goal := "Analyze topics and identify the most effective search terms and phrases";
             backstory := keyword_researcher_backstory;
             tools := [search]; llm := llm; verbose := true |} ;;
  sa <- new_Agent
          {| role := "Search Results Analyst";
             goal := "Evaluate and refine search queries based on initial results";
             backstory := search_analyst_backstory;
             tools := [search]; llm := llm; verbose := true |} ;;
  ic <- new_Agent
          {| role := "Research Insights Compiler";
             goal := "Synthesize findings and create structured recommendations";
             backstory := insights_compiler_backstory;
             tools := [search]; llm := llm; verbose := true |} ;;
  ret (kr, sa, ic).

(** [ResearcherAgent.__init__]. *)
Definition ResearcherAgent_init (mr : AgentRunInput) : M ResearcherAgent :=
  let cfg :=
    naptha_sdk.llm_config (naptha_sdk.agent_config (naptha_sdk.agent_deployment mr)) in
  the_tools <- setup_tools ;;
  let '(search, reader, writer) := the_tools in
  the_agents <- setup_agents search ;;
  let '(kr, sa, ic) := the_agents in
  ret {| module_run := mr; llm_config := cfg;
         search_tool := search; file_read := reader; file_write := writer;
         keyword_researcher := kr; search_analyst := sa; insights_compiler := ic |}.

(** One line of a task description as the source lays it out: sixteen
    columns of indentation, the text, a line break. *)
Definition line (s : string) : string := Text.spaces 16 +:+ s +:+ Text.nl.

Definition keyword_analysis_description (rt : ResearchTopic) : string :=
  Text.nl
  +:+ line "Analyze the following topic and identify potential keywords and search phrases:"
  +:+ line ("TOPIC: " +:+ Text.dq +:+ schemas.topic rt +:+ Text.dq)
  +:+ line ("RESEARCH OBJECTIVE: " +:+ Text.dq
            +:+ format_optional (schemas.research_objective rt) +:+ Text.dq)
  +:+ line ("SPECIFIC FOCUS: " +:+ Text.dq
            +:+ format_optional (schemas.specific_focus rt) +:+ Text.dq)
  +:+ line ""
  +:+ line "1. Break down the topic into main concepts"
  +:+ line "2. Generate primary keywords for each concept"
  +:+ line "3. Identify related terms and synonyms"
  +:+ line "4. Consider different search intents"
  +:+ line "5. List at least 5 potential search phrases"
  +:+ Text.spaces 12.

Definition search_analysis_description : string :=
  Text.nl
  +:+ line "Evaluate the effectiveness of the proposed keywords by analyzing search results:"
  +:+ line "1. Test each main keyword/phrase identified"
  +:+ line "2. Analyze the relevance of returned results"
  +:+ line "3. Identify gaps or irrelevant results"
  +:+ line "4. Suggest modifications to improve search accuracy"
  +:+ Text.spaces 12.

Definition final_recommendations_description : string :=
  Text.nl
  +:+ line "Compile final keyword recommendations and search strategy:"
  +:+ line "1. Synthesize findings from keyword research and search analysis"
  +:+ line "2. Create a prioritized list of recommended search terms"
  +:+ line "3. Group related terms and phrases"
  +:+ line "4. Provide specific recommendations for different search objectives"
  +:+ Text.spaces 12.

(** The artifact path of a stage for a given timestamp. *)
Definition artifact (stage timestamp : string) : string :=
  "output-files/" +:+ stage +:+ "_" +:+ timestamp +:+ ".md".

Section Run.

Variable E : Env.

(** [datetime.datetime.now()]. *)
Definition now : M datetime :=
  fun w =>
    let d := clock E (clock_reads w) in
    ({| trace := trace w ++ [EvNow d]; allocated := allocated w;
        clock_reads := S (clock_reads w) |}, Ok d).

(** [ResearcherAgent.create_tasks]. *)
Definition create_tasks (self : ResearcherAgent) (rt : ResearchTopic) : M (list Task) :=
  d <- now ;;
  let timestamp := datetime.strftime d in
  task_1 <- new_Task (mkTask (keyword_analysis_description rt)
                             (keyword_researcher self) []
                             (artifact "keyword_analysis" timestamp)) ;;
  task_2 <- new_Task (mkTask search_analysis_description
                             (search_analyst self) [task_1]
                             (artifact "search_analysis" timestamp)) ;;
  task_3 <- new_Task (mkTask final_recommendations_description
                             (insights_compiler self) [task_2]
                             (artifact "final_recommendations" timestamp)) ;;
  ret [task_1; task_2; task_3].

(** The dictionary display in the [try] block of [research]: the three
    [get] calls run in order and the first one to raise ends it. *)
Definition shape_results (r : crew_output) : result (gmap string pyval) :=
  match result_get r "task_1" empty_dict with
  | Raise e => Raise e
  | Ok k =>
      match result_get r "task_2" empty_dict with
      | Raise e => Raise e
      | Ok s =>
          match result_get r "task_3" empty_dict with
          | Raise e => Raise e
          | Ok f =>
              Ok (<["keyword_analysis" := k]>
                    (<["search_analysis" := s]>
                       (<["final_recommendations" := f]> ∅)))
          end
      end
  end.

(** The dictionary returned by the [except] handler. *)
Definition empty_results : gmap string pyval :=
  <["keyword_analysis" := empty_dict]>
    (<["search_analysis" := empty_dict]>
       (<["final_recommendations" := empty_dict]> ∅)).

(** [ResearcherAgent.research]. *)
Definition research (self : ResearcherAgent) (rt : ResearchTopic)
  : M (gmap string pyval) :=
  tasks <- create_tasks self rt ;;
  let crew :=
    {| agents := [keyword_researcher self; search_analyst self; insights_compiler self];
       tasks := tasks; crew_verbose := true; process := sequential |} in
  emit (EvKickoff crew) ;;;
  out <- match kickoff E crew with
         | inr out => ret out
         | inl what => raise (StageExecutionError what)
         end ;;
  match shape_results out with
  | Ok research_results => ret research_results
  | Raise e =>
      if caught_by_except_Exception e
      then emit (EvLogError e) ;;; ret empty_results
      else raise e
  end.

(** [run]. *)
Definition run (mr : AgentRunInput) : M (gmap string pyval) :=
  researcher <- ResearcherAgent_init mr ;;
  input_params <-
    match naptha_sdk.inputs mr with
    | InputsDict kw =>
        emit (EvValidate kw) ;;;
        match pydantic.InputSchema_init (coercions E) kw with
        | inl locs => raise (ValidationError locs)
        | inr p => ret (InputsModel p)
        end
    | other => ret other
    end ;;
  rt <- lift (get_research_topic input_params) ;;
  research researcher rt.

End Run.

(** ** run.py: what importing the module does *)

Module startup.

(** [load_dotenv()] with its defaults: the variables of the .env file,
    here as the parsed file [dotenv], are added to the process
    environment; a variable that is already set keeps its value. *)
Definition load_dotenv (dotenv environ : gmap string string) : gmap string string :=
  environ ∪ dotenv.

(** [os.getenv(name)]. *)
Definition getenv (environ : gmap string string) (name : string) : option string :=
  environ !! name.

(** [bool(v)] for [v] that is [None] or text. *)
Definition truthy (v : option string) : bool :=
  match v with
  | None => false
  | Some EmptyString => false
  | Some (String _ _) => true
  end.

(** [str(b)]. *)
Definition str_of_bool (b : bool) : string :=
  if b then "True" else "False".

(** [print(a, b)]: the line it writes. *)
Definition print2 (a b : string) : string := a +:+ " " +:+ b +:+ Text.nl.

(** Lines 5 to 8 of [run.py]: the environment after the import and the
    two lines printed. *)
Definition import_module (dotenv environ : gmap string string)
  : gmap string string * list string :=
  let environ' := load_dotenv dotenv environ in
  (environ',
   [print2 "OpenAI Key loaded:" (str_of_bool (truthy (getenv environ' "OPENAI_API_KEY")));
    print2 "Serper Key loaded:" (str_of_bool (truthy (getenv environ' "SERPER_API_KEY")))]).

End startup.

(** * Vocabulary of the properties *)

Definition two_digits (s : string) : bool :=
  match s with
  | String a (String b EmptyString) => Text.is_digit a && Text.is_digit b
  | _ => false
  end.

Definition four_digits (s : string) : bool :=
  match s with
  | String a (String b rest) => Text.is_digit a && Text.is_digit b && two_digits rest
  | _ => false
  end.

Fixpoint count (p : event -> bool) (l : list event) : nat :=
  match l with
  | [] => 0
  | ev :: l' => (if p ev then 1 else 0) + count p l'
  end.

Definition is_tool_init (ev : event) : bool :=
  match ev with EvTool _ => true | _ => false end.
Definition is_llm_init (ev : event) : bool :=
  match ev with EvLLM _ => true | _ => false end.
Definition is_agent_init (ev : event) : bool :=
  match ev with EvAgent _ => true | _ => false end.
Definition is_validation (ev : event) : bool :=
  match ev with EvValidate _ => true | _ => false end.
Definition is_clock_read (ev : event) : bool :=
  match ev with EvNow _ => true | _ => false end.
Definition is_task_init (ev : event) : bool :=
  match ev with EvTask _ => true | _ => false end.
Definition is_kickoff (ev : event) : bool :=
  match ev with EvKickoff _ => true | _ => false end.
Definition is_logged_error (ev : event) : bool :=
  match ev with EvLogError _ => true | _ => false end.

(** The world after some more events. *)
Definition logged (evs : list event) (w : world) : world :=
  {| trace := trace w ++ evs; allocated := allocated w; clock_reads := clock_reads w |}.

(** The three tasks [create_tasks] builds when the clock reads [d]. *)
Definition task_1_at (self : ResearcherAgent) (rt : ResearchTopic) (d : datetime) : Task :=
  mkTask (keyword_analysis_description rt) (keyword_researcher self) []
         (artifact "keyword_analysis" (datetime.strftime d)).

Definition task_2_at (self : ResearcherAgent) (rt : ResearchTopic) (d : datetime) : Task :=
  mkTask search_analysis_description (search_analyst self) [task_1_at self rt d]
         (artifact "search_analysis" (datetime.strftime d)).

Definition task_3_at (self : ResearcherAgent) (rt : ResearchTopic) (d : datetime) : Task :=
  mkTask final_recommendations_description (insights_compiler self) [task_2_at self rt d]
         (artifact "final_recommendations" (datetime.strftime d)).

Definition crew_at (self : ResearcherAgent) (rt : ResearchTopic) (d : datetime) : Crew :=
  {| agents := [keyword_researcher self; search_analyst self; insights_compiler self];
     tasks := [task_1_at self rt d; task_2_at self rt d; task_3_at self rt d];
     crew_verbose := true; process := sequential |}.

Definition ticked (w : world) : world :=
  {| trace := trace w; allocated := allocated w; clock_reads := S (clock_reads w) |}.

(** The end of [research] once the crew has answered. *)
Definition finish (out : crew_output) (w : world) : world * result (gmap string pyval) :=
  match shape_results out with
  | Ok r => (w, Ok r)
  | Raise e =>
      if caught_by_except_Exception e
      then (logged [EvLogError e] w, Ok empty_results)
      else (w, Raise e)
  end.

(** The events of [__init__], read off the agent it built. *)
Definition setup_events (self : ResearcherAgent) : list event :=
  [EvTool (search_tool self); EvTool (file_read self); EvTool (file_write self);
   EvLLM (llm (keyword_researcher self));
   EvAgent (keyword_researcher self); EvAgent (search_analyst self);
   EvAgent (insights_compiler self)].

Definition after_setup (self : ResearcherAgent) (w : world) : world :=
  {| trace := trace w ++ setup_events self; allocated := 4 + allocated w;
     clock_reads := clock_reads w |}.

(** What is true of every [ResearcherAgent] that [__init__] builds. *)
Record built_by_init (mr : AgentRunInput) (self : ResearcherAgent) : Prop := {
  built_module_run : module_run self = mr;
  built_llm_config :
    llm_config self =
    naptha_sdk.llm_config (naptha_sdk.agent_config (naptha_sdk.agent_deployment mr));
  built_tools :
    tool_is (search_tool self) = SerperDevTool
    /\ tool_is (file_read self) = FileReadTool
    /\ tool_is (file_write self) = FileWriteTool;
  built_model : model_name (llm (keyword_researcher self)) = "gpt-4o";
  built_temperature : temperature (llm (keyword_researcher self)) = 7 # 10;
  built_llm_shared :
    llm (search_analyst self) = llm (keyword_researcher self)
    /\ llm (insights_compiler self) = llm (keyword_researcher self);
  built_agent_tools :
    tools (keyword_researcher self) = [search_tool self]
    /\ tools (search_analyst self) = [search_tool self]
    /\ tools (insights_compiler self) = [search_tool self]
}.

Module Examples.

(** pydantic in strict mode: nothing is coerced. *)
Definition strict : Coercions :=
  {| lax_str := fun _ => None; lax_int := fun _ => None; lax_bool := fun _ => None |}.

Definition a_saturday_morning : datetime :=
  {| datetime.year := 2024; datetime.month := 3; datetime.day := 9;
     datetime.hour := 8; datetime.minute := 5; datetime.second := 59 |}.

Definition env (answer : string + crew_output) : Env :=
  {| coercions := strict; clock := fun _ => a_saturday_morning;
     kickoff := fun _ => answer |}.

Definition deployment : naptha_sdk.AgentDeployment :=
  {| naptha_sdk.agent_config :=
       {| naptha_sdk.llm_config :=
            {| naptha_sdk.model := "gpt-3.5-turbo";
               naptha_sdk.temperature := 2 # 10 |} |} |}.

Definition request (i : run_inputs) : AgentRunInput :=
  {| naptha_sdk.inputs := i; naptha_sdk.agent_deployment := deployment;
     naptha_sdk.consumer_id := "user:1" |}.

(** A topic with neither objective nor focus. *)
Definition bare_topic : ResearchTopic :=
  {| schemas.topic := "AI agents"; schemas.context := None;
     schemas.depth := Some "comprehensive";
     schemas.research_objective := None; schemas.specific_focus := None |}.

Definition bare_params : InputSchema :=
  {| schemas.research_topic := bare_topic; schemas.max_sources := Some 5%Z;
     schemas.include_citations := Some true |}.

(** The agent [__init__] builds for [request InputsNone] in a fresh world. *)
Definition search : Tool := {| tool_addr := 0; tool_is := SerperDevTool |}.

Definition gpt : ChatOpenAI :=
  {| llm_addr := 3; model_name := "gpt-4o"; temperature := 7 # 10 |}.

Definition researcher : ResearcherAgent :=
  {| module_run := request InputsNone;
     llm_config := {| naptha_sdk.model := "gpt-3.5-turbo";
                      naptha_sdk.temperature := 2 # 10 |};
     search_tool := search;
     file_read := {| tool_addr := 1; tool_is := FileReadTool |};
     file_write := {| tool_addr := 2; tool_is := FileWriteTool |};
     keyword_researcher :=
       {| role := "Expert Keyword Research Specialist";
          goal := "Analyze topics and identify the most effective search terms and phrases";
          backstory := keyword_researcher_backstory;
          tools := [search]; llm := gpt; verbose := true |};
     search_analyst :=
       {| role := "Search Results Analyst";
          goal := "Evaluate and refine search queries based on initial results";
          backstory := search_analyst_backstory;
          tools := [search]; llm := gpt; verbose := true |};
     insights_compiler :=
       {| role := "Research Insights Compiler";
          goal := "Synthesize findings and create structured recommendations";
          backstory := insights_compiler_backstory;
          tools := [search]; llm := gpt; verbose := true |} |}.

Definition phrases : pyval :=
  PyDict {[ "phrases" := PyList [PyStr "autonomous agents"; PyStr "agent frameworks"] ]}.

(** A crew output that is a dictionary holding all three stages. *)
Definition full_output : crew_output :=
  OutDict (<["task_1" := phrases]>
             (<["task_2" := PyDict ∅]> (<["task_3" := phrases]> ∅))).

(** A crew output that is a dictionary without the second stage. *)
Definition output_without_task_2 : crew_output :=
  OutDict (<["task_1" := phrases]> {[ "task_3" := phrases ]}).

(** A crew output whose first stage is plain text. *)
Definition text_output : crew_output :=
  OutDict {[ "task_1" := PyStr "autonomous agents, agent frameworks" ]}.

(** A crew output object whose [get] fails for the second stage only. *)
Definition second_stage_unreadable : crew_output :=
  OutObject (fun key default =>
               if String.eqb key "task_2" then Raise (Raised "KeyError" true)
               else Ok phrases).

(** Request dictionaries. *)
Definition without_topic : gmap string pyval :=
  {[ "research_topic" := PyDict {[ "context" := PyStr "recent work" ]} ]}.

Definition with_empty_topic : gmap string pyval :=
  {[ "research_topic" := PyDict {[ "topic" := PyStr "" ]} ]}.

Definition with_no_sources : gmap string pyval :=
  <["research_topic" := PyDict {[ "topic" := PyStr "AI agents" ]}]>
    {[ "max_sources" := PyInt 0 ]}.

Definition with_negative_sources : gmap string pyval :=
  <["research_topic" := PyDict {[ "topic" := PyStr "AI agents" ]}]>
    {[ "max_sources" := PyInt (-3) ]}.

End Examples.

(** The request names no topic: there is no research_topic key, or it is
    a dictionary without a topic key. *)
Definition topic_missing (kw : gmap string pyval) : bool :=
  match kw !! "research_topic" with
  | None => true
  | Some (PyDict t) =>
      match t !! "topic" with
      | None => true
      | Some _ => false
      end
  | Some _ => false
  end.

(** How far a run gets: it stops at validation, stops at the attribute
    lookup, or is [research] on the topic it was given, started in a world
    that holds the setup events and at most one validation event. *)
Inductive run_outcome (E : Env) (mr : AgentRunInput) : Prop :=
| stops_at_validation (self : ResearcherAgent) (kw : gmap string pyval)
    (locs : list (list string)) :
    built_by_init mr self ->
    naptha_sdk.inputs mr = InputsDict kw ->
    pydantic.InputSchema_init (coercions E) kw = inl locs ->
    run E mr boot = (logged [EvValidate kw] (after_setup self boot),
                     Raise (ValidationError locs)) ->
    run_outcome E mr
| stops_at_attribute (self : ResearcherAgent) (cls : string) :
    built_by_init mr self ->
    is_dict (naptha_sdk.inputs mr) = false ->
    run E mr boot = (after_setup self boot, Raise (AttributeError cls "research_topic")) ->
    run_outcome E mr
| goes_on_validated (self : ResearcherAgent) (kw : gmap string pyval) (p : InputSchema) :
    built_by_init mr self ->
    naptha_sdk.inputs mr = InputsDict kw ->
    pydantic.InputSchema_init (coercions E) kw = inr p ->
    run E mr boot = research E self (schemas.research_topic p)
                             (logged [EvValidate kw] (after_setup self boot)) ->
    run_outcome E mr
| goes_on_as_given (self : ResearcherAgent) (p : InputSchema) :
    built_by_init mr self ->
    naptha_sdk.inputs mr = InputsModel p ->
    run E mr boot = research E self (schemas.research_topic p) (after_setup self boot) ->
    run_outcome E mr.

(** The agent [__init__] builds for [mr] in a fresh world: the agents
    and tools do not depend on [mr]. *)
Definition researcher_of (mr : AgentRunInput) : ResearcherAgent :=
  {| module_run := mr;
     llm_config :=
       naptha_sdk.llm_config (naptha_sdk.agent_config (naptha_sdk.agent_deployment mr));
     search_tool := search_tool Examples.researcher;
     file_read := file_read Examples.researcher;
     file_write := file_write Examples.researcher;
     keyword_researcher := keyword_researcher Examples.researcher;
     search_analyst := search_analyst Examples.researcher;
     insights_compiler := insights_compiler Examples.researcher |}.

(** Two topics that agree on the three fields the prompt shows. *)
Definition same_prompt_fields (rt rt' : ResearchTopic) : Prop :=
  schemas.topic rt = schemas.topic rt'
  /\ schemas.research_objective rt = schemas.research_objective rt'
  /\ schemas.specific_focus rt = schemas.specific_focus rt'.

(** The artifact paths of the tasks [create_tasks] returns. *)
Definition output_files (E : Env) (self : ResearcherAgent) (rt : ResearchTopic)
    (w : world) : list string :=
  match (create_tasks E self rt w).2 with
  | Ok ts => map output_file ts
  | Raise _ => []
  end.

(** Reading a timestamp back: the number a run of digits stands for, and
    the six numbers of a text of the shape YYYYMMDD_HHMMSS. *)
Definition digit_value (c : ascii) : N := N.of_nat (nat_of_ascii c - 48).

Fixpoint number_from (acc : N) (s : string) : N :=
  match s with
  | EmptyString => acc
  | String c s' => number_from (10 * acc + digit_value c) s'
  end.

Definition number (s : string) : N := number_from 0 s.

Definition read_timestamp (s : string) : datetime :=
  {| datetime.year := number (substring 0 4 s);
     datetime.month := number (substring 4 2 s);
     datetime.day := number (substring 6 2 s);
     datetime.hour := number (substring 9 2 s);
     datetime.minute := number (substring 11 2 s);
     datetime.second := number (substring 13 2 s) |}.

(** The names of the fields of the two request models. *)
Definition ResearchTopic_fields : list string :=
  ["topic"; "context"; "depth"; "research_objective"; "specific_focus"].

Definition InputSchema_fields : list string :=
  ["research_topic"; "max_sources"; "include_citations"].

(** The clock readings and the tasks of a trace, in the order they were
    made. *)
Fixpoint clock_readings (l : list event) : list datetime :=
  match l with
  | [] => []
  | EvNow d :: l' => d :: clock_readings l'
  | _ :: l' => clock_readings l'
  end.

Fixpoint tasks_built (l : list event) : list Task :=
  match l with
  | [] => []
  | EvTask t :: l' => t :: tasks_built l'
  | _ :: l' => tasks_built l'
  end.

Module MoreExamples.

(** The same inputs under another deployment and another consumer. *)
Definition other_request (i : run_inputs) : AgentRunInput :=
  {| naptha_sdk.inputs := i;
     naptha_sdk.agent_deployment :=
       {| naptha_sdk.agent_config :=
            {| naptha_sdk.llm_config :=
                 {| naptha_sdk.model := "gpt-4o-mini";
                    naptha_sdk.temperature := 0 |} |} |};
     naptha_sdk.consumer_id := "user:2" |}.

(** The topic of [Examples.bare_topic] with a context and another depth,
    in a request for fifty sources without citations. *)
Definition detailed_params : InputSchema :=
  {| schemas.research_topic :=
       {| schemas.topic := "AI agents"; schemas.context := Some "recent work";
          schemas.depth := Some "brief";
          schemas.research_objective := None; schemas.specific_focus := None |};
     schemas.max_sources := Some 50%Z; schemas.include_citations := Some false |}.

(** A request dictionary that validates to [detailed_params]. *)
Definition detailed_kw : gmap string pyval :=
  <["research_topic" :=
      PyDict (<["topic" := PyStr "AI agents"]>
                (<["context" := PyStr "recent work"]> {[ "depth" := PyStr "brief" ]}))]>
    (<["max_sources" := PyInt 50]> {[ "include_citations" := PyBool false ]}).

(** A crew whose second stage fails. *)
Definition failing : Env := Examples.env (inl "search tool timed out").

(** A crew whose output is an object without [get]. *)
Definition opaque : Env := Examples.env (inr (OutOpaque "str")).

(** A crew output whose [get] is interrupted from the keyboard. *)
Definition interrupted : crew_output :=
  OutObject (fun _ _ => Raise (Raised "KeyboardInterrupt" false)).

Definition one_second_later : datetime :=
  {| datetime.year := 2024; datetime.month := 3; datetime.day := 9;
     datetime.hour := 8; datetime.minute := 6; datetime.second := 0 |}.

(** An environment whose clock shows [d]. *)
Definition at_time (d : datetime) : Env :=
  {| coercions := Examples.strict; clock := fun _ => d;
     kickoff := fun _ => inr Examples.full_output |}.

(** Environments with and without keys. *)
Definition dotenv : gmap string string :=
  <["OPENAI_API_KEY" := "sk-from-file"]> {[ "SERPER_API_KEY" := "" ]}.

Definition environ : gmap string string := {[ "OPENAI_API_KEY" := "" ]}.

End MoreExamples.

(** * Properties *)

(** ** Text *)

Lemma append_cons (x : ascii) (a b : string) : String x a +:+ b = String x (a +:+ b).
Proof. reflexivity. Qed.

Lemma append_assoc (a b c : string) : (a +:+ b) +:+ c = a +:+ (b +:+ c).
Proof.
  induction a as [|x a IH]; [reflexivity|].
  now rewrite !append_cons, IH.
Qed.

Lemma starts_with_append (p s : string) : Text.starts_with p (p +:+ s) = true.
Proof.
  induction p as [|x p IH]; [reflexivity|].
  rewrite append_cons. simpl. now rewrite Ascii.eqb_refl.
Qed.

Lemma contains_here (p s : string) : Text.contains p (p +:+ s) = true.
Proof.
  destruct p as [|x p]; [now destruct s|].
  rewrite append_cons. simpl.
  now rewrite Ascii.eqb_refl, starts_with_append.
Qed.

Lemma contains_later (p a s : string) :
  Text.contains p s = true -> Text.contains p (a +:+ s) = true.
Proof.
  intros H. induction a as [|x a IH]; [exact H|].
  rewrite append_cons. simpl. rewrite IH. apply orb_true_r.
Qed.

Lemma contains_middle (p a b : string) : Text.contains p (a +:+ p +:+ b) = true.
Proof. apply contains_later, contains_here. Qed.

(** ** Timestamps *)

Lemma checked_below (P : N -> bool) (bound : N) :
  forallb P (map N.of_nat (seq 0 (N.to_nat bound))) = true ->
  forall n, (n < bound)%N -> P n = true.
Proof.
  intros Hall n Hn.
  rewrite forallb_forall in Hall. apply Hall.
  apply in_map_iff. exists (N.to_nat n). split; [apply N2Nat.id|].
  apply in_seq. lia.
Qed.

Lemma zfill_2_digits (n : N) : (n <= 99)%N -> two_digits (datetime.zfill 2 n) = true.
Proof.
  intros Hn.
  apply (checked_below (fun k => two_digits (datetime.zfill 2 k)) 100); [|lia].
  vm_compute. reflexivity.
Qed.

Lemma zfill_4_digits (n : N) :
  (1000 <= n <= 9999)%N -> four_digits (datetime.zfill 4 n) = true.
Proof.
  intros Hn.
  assert (H : (n <? 1000)%N || four_digits (datetime.zfill 4 n) = true).
  { apply (checked_below
             (fun k => (k <? 1000)%N || four_digits (datetime.zfill 4 k)) 10000);
      [vm_compute; reflexivity | lia]. }
  destruct (N.ltb_spec n 1000); [lia | exact H].
Qed.

Lemma two_digits_inv (s : string) :
  two_digits s = true ->
  exists a b, s = String a (String b EmptyString)
              /\ Text.is_digit a = true /\ Text.is_digit b = true.
Proof.
  destruct s as [|a [|b [|? ?]]]; simpl; try discriminate.
  intros H. apply andb_prop in H as [Ha Hb]. now exists a, b.
Qed.

Lemma four_digits_inv (s : string) :
  four_digits s = true ->
  exists a b c d, s = String a (String b (String c (String d EmptyString)))
                  /\ Text.is_digit a = true /\ Text.is_digit b = true
                  /\ Text.is_digit c = true /\ Text.is_digit d = true.
Proof.
  destruct s as [|a [|b rest]]; simpl; try discriminate.
  intros H. apply andb_prop in H as [H Hr]. apply andb_prop in H as [Ha Hb].
  apply two_digits_inv in Hr as (c & d & -> & Hc & Hd).
  now exists a, b, c, d.
Qed.

Lemma strftime_is_timestamp (d : datetime) :
  datetime.plausible d -> datetime.is_timestamp (datetime.strftime d) = true.
Proof.
  intros (Hy & Hm & Hd & HH & HM & HS).
  unfold datetime.strftime.
  destruct (four_digits_inv _ (zfill_4_digits (datetime.year d) Hy))
    as (y1 & y2 & y3 & y4 & -> & ? & ? & ? & ?).
  destruct (two_digits_inv _ (zfill_2_digits (datetime.month d) ltac:(lia)))
    as (m1 & m2 & -> & ? & ?).
  destruct (two_digits_inv _ (zfill_2_digits (datetime.day d) ltac:(lia)))
    as (d1 & d2 & -> & ? & ?).
  destruct (two_digits_inv _ (zfill_2_digits (datetime.hour d) ltac:(lia)))
    as (h1 & h2 & -> & ? & ?).
  destruct (two_digits_inv _ (zfill_2_digits (datetime.minute d) ltac:(lia)))
    as (n1 & n2 & -> & ? & ?).
  destruct (two_digits_inv _ (zfill_2_digits (datetime.second d) ltac:(lia)))
    as (s1 & s2 & -> & ? & ?).
  lazy -[Text.is_digit].
  repeat match goal with
         | H : Text.is_digit _ = true |- _ => rewrite H; clear H
         end.
  reflexivity.
Qed.

Lemma number_of_zfill_2 (n : N) : (n <= 99)%N -> number (datetime.zfill 2 n) = n.
Proof.
  intros Hn. apply N.eqb_eq.
  apply (checked_below (fun k => (number (datetime.zfill 2 k) =? k)%N) 100); [|lia].
  vm_compute. reflexivity.
Qed.

Lemma number_of_zfill_4 (n : N) :
  (1000 <= n <= 9999)%N -> number (datetime.zfill 4 n) = n.
Proof.
  intros Hn.
  assert (H : (n <? 1000)%N || (number (datetime.zfill 4 n) =? n)%N = true).
  { apply (checked_below
             (fun k => (k <? 1000)%N || (number (datetime.zfill 4 k) =? k)%N) 10000);
      [vm_compute; reflexivity | lia]. }
  destruct (N.ltb_spec n 1000); [lia|]. now apply N.eqb_eq.
Qed.

Lemma timestamp_reads_back (x : datetime) :
  datetime.plausible x -> read_timestamp (datetime.strftime x) = x.
Proof.
  destruct x as [y m dd h mi s]. intros (Hy & Hm & Hd & HH & HM & HS). simpl in *.
  pose proof (number_of_zfill_4 y Hy) as Ny.
  pose proof (number_of_zfill_2 m ltac:(lia)) as Nm.
  pose proof (number_of_zfill_2 dd ltac:(lia)) as Nd.
  pose proof (number_of_zfill_2 h ltac:(lia)) as Nh.
  pose proof (number_of_zfill_2 mi ltac:(lia)) as Nmi.
  pose proof (number_of_zfill_2 s ltac:(lia)) as Ns.
  unfold datetime.strftime. simpl.
  destruct (four_digits_inv _ (zfill_4_digits y Hy)) as (y1 & y2 & y3 & y4 & Ey & _).
  destruct (two_digits_inv _ (zfill_2_digits m ltac:(lia))) as (m1 & m2 & Em & _).
  destruct (two_digits_inv _ (zfill_2_digits dd ltac:(lia))) as (d1 & d2 & Ed & _).
  destruct (two_digits_inv _ (zfill_2_digits h ltac:(lia))) as (h1 & h2 & Eh & _).
  destruct (two_digits_inv _ (zfill_2_digits mi ltac:(lia))) as (n1 & n2 & Emi & _).
  destruct (two_digits_inv _ (zfill_2_digits s ltac:(lia))) as (s1 & s2 & Es & _).
  rewrite Ey in Ny |- *. rewrite Em in Nm |- *. rewrite Ed in Nd |- *.
  rewrite Eh in Nh |- *. rewrite Emi in Nmi |- *. rewrite Es in Ns |- *.
  unfold read_timestamp.
  lazy beta iota zeta delta [append substring].
  now rewrite Ny, Nm, Nd, Nh, Nmi, Ns.
Qed.

Lemma strftime_tells_seconds_apart (d d' : datetime) :
  datetime.plausible d -> datetime.plausible d' ->
  datetime.strftime d = datetime.strftime d' -> d = d'.
Proof.
  intros Hd Hd' Heq.
  rewrite <- (timestamp_reads_back d Hd), <- (timestamp_reads_back d' Hd').
  now rewrite Heq.
Qed.

Example artifact_of_keyword_analysis :
  artifact "keyword_analysis" (datetime.strftime Examples.a_saturday_morning)
  = "output-files/keyword_analysis_20240309_080559.md".
Proof. reflexivity. Qed.

(** ** The description of the first stage *)

Lemma description_shows_topic (rt : ResearchTopic) :
  exists after,
    keyword_analysis_description rt
    = (Text.nl
       +:+ line "Analyze the following topic and identify potential keywords and search phrases:"
       +:+ Text.spaces 16 +:+ "TOPIC: " +:+ Text.dq)
      +:+ schemas.topic rt +:+ after.
Proof.
  eexists. unfold keyword_analysis_description, line.
  rewrite !append_assoc. reflexivity.
Qed.

Lemma description_shows_optional_fields (rt : ResearchTopic) :
  exists after,
    keyword_analysis_description rt
    = (Text.nl
       +:+ line "Analyze the following topic and identify potential keywords and search phrases:"
       +:+ line ("TOPIC: " +:+ Text.dq +:+ schemas.topic rt +:+ Text.dq)
       +:+ Text.spaces 16)
      +:+ ("RESEARCH OBJECTIVE: " +:+ Text.dq
           +:+ format_optional (schemas.research_objective rt) +:+ Text.dq)
      +:+ (Text.nl +:+ Text.spaces 16)
      +:+ ("SPECIFIC FOCUS: " +:+ Text.dq
           +:+ format_optional (schemas.specific_focus rt) +:+ Text.dq)
      +:+ after.
Proof.
  eexists. unfold keyword_analysis_description, line.
  rewrite !append_assoc. reflexivity.
Qed.

(** ** Validation of the request *)

Lemma ResearchTopic_needs_topic (C : Coercions) (t : gmap string pyval) :
  t !! "topic" = None ->
  exists rest, pydantic.ResearchTopic_init C t = inl (["topic"] :: rest).
Proof.
  intros H. unfold pydantic.ResearchTopic_init, pydantic.required.
  rewrite H. simpl. eexists. reflexivity.
Qed.

Lemma missing_topic_is_rejected (C : Coercions) (kw : gmap string pyval) :
  topic_missing kw = true ->
  exists locs,
    pydantic.InputSchema_init C kw = inl locs
    /\ (["research_topic"] ∈ locs \/ ["research_topic"; "topic"] ∈ locs).
Proof.
  unfold topic_missing, pydantic.InputSchema_init. intros H.
  destruct (kw !! "research_topic") as [v|].
  - destruct v as [| | | | |t|]; try discriminate H.
    destruct (t !! "topic") eqn:Ht; [discriminate H|].
    unfold pydantic.topic_field.
    destruct (ResearchTopic_needs_topic C t Ht) as (rest & ->).
    eexists. split; [reflexivity|]. right. simpl. apply list_elem_of_here.
  - eexists. split; [reflexivity|]. left. simpl. apply list_elem_of_here.
Qed.

Lemma empty_topic_is_no_failure (C : Coercions) (t : gmap string pyval) :
  t !! "topic" = Some (PyStr "") ->
  pydantic.required (pydantic.str_field C) t "topic" = Some ""
  /\ forall locs, pydantic.ResearchTopic_init C t = inl locs -> ["topic"] ∉ locs.
Proof.
  intros H.
  assert (Hreq : pydantic.required (pydantic.str_field C) t "topic" = Some "")
    by (unfold pydantic.required; now rewrite H).
  split; [exact Hreq|].
  intros locs. unfold pydantic.ResearchTopic_init. rewrite Hreq.
  destruct (pydantic.with_default _ None t "context");
    destruct (pydantic.with_default _ (Some "comprehensive") t "depth");
    destruct (pydantic.with_default _ None t "research_objective");
    destruct (pydantic.with_default _ None t "specific_focus");
    simpl; intros Heq; try discriminate Heq; injection Heq as <-;
    rewrite list_elem_of_In; simpl; intuition discriminate.
Qed.

(** ** The steps of a run *)

Lemma count_app (p : event -> bool) (l1 l2 : list event) :
  count p (l1 ++ l2) = count p l1 + count p l2.
Proof. induction l1 as [|ev l1 IH]; simpl; [reflexivity | rewrite IH; lia]. Qed.

Lemma create_tasks_eq (E : Env) (self : ResearcherAgent) (rt : ResearchTopic) (w : world) :
  let d := clock E (clock_reads w) in
  create_tasks E self rt w =
    (logged [EvNow d; EvTask (task_1_at self rt d); EvTask (task_2_at self rt d);
             EvTask (task_3_at self rt d)] (ticked w),
     Ok [task_1_at self rt d; task_2_at self rt d; task_3_at self rt d]).
Proof.
  cbv [create_tasks now new_Task bind emit ret logged ticked trace allocated clock_reads].
  unfold task_3_at, task_2_at, task_1_at.
  rewrite <- !app_assoc. reflexivity.
Qed.

Lemma research_eq (E : Env) (self : ResearcherAgent) (rt : ResearchTopic) (w : world) :
  let d := clock E (clock_reads w) in
  let w1 := logged [EvNow d; EvTask (task_1_at self rt d); EvTask (task_2_at self rt d);
                    EvTask (task_3_at self rt d); EvKickoff (crew_at self rt d)]
                   (ticked w) in
  research E self rt w =
    match kickoff E (crew_at self rt d) with
    | inr out => finish out w1
    | inl what => (w1, Raise (StageExecutionError what))
    end.
Proof.
  intros d w1. unfold research, bind at 1. rewrite create_tasks_eq. fold d.
  cbv [bind emit lift ret raise]. fold (crew_at self rt d).
  assert (Hw : {| trace := trace (logged [EvNow d; EvTask (task_1_at self rt d);
                                           EvTask (task_2_at self rt d);
                                           EvTask (task_3_at self rt d)] (ticked w))
                           ++ [EvKickoff (crew_at self rt d)];
                  allocated := allocated (logged [EvNow d; EvTask (task_1_at self rt d);
                                                  EvTask (task_2_at self rt d);
                                                  EvTask (task_3_at self rt d)] (ticked w));
                  clock_reads := clock_reads (logged [EvNow d; EvTask (task_1_at self rt d);
                                                      EvTask (task_2_at self rt d);
                                                      EvTask (task_3_at self rt d)] (ticked w)) |}
               = w1).
  { unfold w1, logged; simpl. rewrite <- app_assoc. reflexivity. }
  rewrite Hw.
  destruct (kickoff E (crew_at self rt d)) as [what|out]; [reflexivity|].
  unfold finish. destruct (shape_results out) as [r|e]; [reflexivity|].
  destruct (caught_by_except_Exception e); reflexivity.
Qed.

Lemma init_eq (mr : AgentRunInput) (w : world) :
  exists self, ResearcherAgent_init mr w = (after_setup self w, Ok self)
               /\ built_by_init mr self.
Proof.
  eexists. split.
  - cbv [ResearcherAgent_init setup_tools setup_agents new_tool new_ChatOpenAI new_Agent
         bind alloc emit ret trace allocated clock_reads].
    apply (f_equal2 pair); [|reflexivity].
    unfold after_setup, setup_events. simpl.
    rewrite <- !app_assoc. reflexivity.
  - split; simpl; auto.
Qed.

Lemma run_eq (E : Env) (mr : AgentRunInput) (w : world) :
  exists self,
    built_by_init mr self /\
    run E mr w =
      match naptha_sdk.inputs mr with
      | InputsDict kw =>
          match pydantic.InputSchema_init (coercions E) kw with
          | inl locs =>
              (logged [EvValidate kw] (after_setup self w), Raise (ValidationError locs))
          | inr p =>
              research E self (schemas.research_topic p)
                       (logged [EvValidate kw] (after_setup self w))
          end
      | InputsModel p => research E self (schemas.research_topic p) (after_setup self w)
      | InputsText _ => (after_setup self w, Raise (AttributeError "str" "research_topic"))
      | InputsNone => (after_setup self w, Raise (AttributeError "NoneType" "research_topic"))
      end.
Proof.
  destruct (init_eq mr w) as (self & Hinit & Hbuilt).
  exists self. split; [exact Hbuilt|].
  unfold run, bind at 1. rewrite Hinit.
  destruct (naptha_sdk.inputs mr) as [kw|p|s|]; try reflexivity.
  cbv [bind emit]. fold (logged [EvValidate kw] (after_setup self w)).
  destruct (pydantic.InputSchema_init (coercions E) kw) as [locs|p]; reflexivity.
Qed.

Lemma researcher_is_built :
  (ResearcherAgent_init (Examples.request InputsNone) boot).2 = Ok Examples.researcher.
Proof. reflexivity. Qed.

(** Whatever the deployment descriptor says, the three agents share one
    [ChatOpenAI] object built for gpt-4o at temperature 0.7; the
    descriptor's configuration is stored in [self.llm_config] and read by
    nothing. *)
Lemma llm_ignores_descriptor (mr : AgentRunInput) (w : world) :
  exists self,
    (ResearcherAgent_init mr w).2 = Ok self
    /\ llm_config self
       = naptha_sdk.llm_config (naptha_sdk.agent_config (naptha_sdk.agent_deployment mr))
    /\ llm (keyword_researcher self)
       = {| llm_addr := 3 + allocated w; model_name := "gpt-4o"; temperature := 7 # 10 |}
    /\ llm (search_analyst self) = llm (keyword_researcher self)
    /\ llm (insights_compiler self) = llm (keyword_researcher self)
    /\ count is_llm_init (trace (ResearcherAgent_init mr w).1)
       = S (count is_llm_init (trace w)).
Proof.
  eexists. split; [reflexivity|]. simpl.
  repeat split.
  rewrite !count_app. simpl. lia.
Qed.

Lemma finish_clock (out : crew_output) (w : world) :
  clock_reads (finish out w).1 = clock_reads w.
Proof.
  unfold finish. destruct (shape_results out) as [r|e]; [reflexivity|].
  destruct (caught_by_except_Exception e); reflexivity.
Qed.

Lemma research_clock (E : Env) (self : ResearcherAgent) (rt : ResearchTopic) (w : world) :
  clock_reads (research E self rt w).1 = S (clock_reads w).
Proof.
  rewrite research_eq.
  destruct (kickoff E _) as [what|out]; [reflexivity|].
  now rewrite finish_clock.
Qed.

Lemma run_clock (E : Env) (mr : AgentRunInput) : clock_reads (run E mr boot).1 <= 1.
Proof.
  destruct (run_eq E mr boot) as (self & _ & ->).
  destruct (naptha_sdk.inputs mr) as [kw|p|s|]; simpl; try lia.
  - destruct (pydantic.InputSchema_init (coercions E) kw) as [locs|p]; simpl; [lia|].
    rewrite research_clock. simpl. lia.
  - rewrite research_clock. simpl. lia.
Qed.

Lemma finish_cases (out : crew_output) (w : world) :
  (exists r, shape_results out = Ok r /\ finish out w = (w, Ok r))
  \/ (exists e, shape_results out = Raise e /\ caught_by_except_Exception e = true
                /\ finish out w = (logged [EvLogError e] w, Ok empty_results))
  \/ (exists e, shape_results out = Raise e /\ caught_by_except_Exception e = false
                /\ finish out w = (w, Raise e)).
Proof.
  unfold finish. destruct (shape_results out) as [r|e]; [left; eauto|].
  destruct (caught_by_except_Exception e) eqn:Hc; [right; left | right; right]; eauto.
Qed.

Lemma run_outcomes (E : Env) (mr : AgentRunInput) : run_outcome E mr.
Proof.
  destruct (run_eq E mr boot) as (self & Hbuilt & Hrun).
  destruct (naptha_sdk.inputs mr) as [kw|p|s|] eqn:Hin.
  - destruct (pydantic.InputSchema_init (coercions E) kw) as [locs|p] eqn:Hv.
    + eapply stops_at_validation; eauto.
    + eapply goes_on_validated; eauto.
  - eapply goes_on_as_given; eauto.
  - eapply stops_at_attribute; eauto. now rewrite Hin.
  - eapply stops_at_attribute; eauto. now rewrite Hin.
Qed.

(** Case analysis on how far the run of [mr] gets; [Hrun] names the
    equation for [run E mr boot] in each case. *)
Ltac by_run_outcome E mr Hrun :=
  let self := fresh "self" in
  let kw := fresh "kw" in
  let locs := fresh "locs" in
  let cls := fresh "cls" in
  let p := fresh "p" in
  destruct (run_outcomes E mr) as [self kw locs _ _ _ Hrun | self cls _ _ Hrun
                                  | self kw p _ _ _ Hrun | self p _ _ Hrun].

(** A membership in a trace that is written out and holds no such
    event. *)
Ltac absent_from_trace H :=
  rewrite list_elem_of_In in H; simpl in H; intuition discriminate.

(** What [research] leaves behind, whatever the crew answers. *)
Lemma research_trace (E : Env) (self : ResearcherAgent) (rt : ResearchTopic) (w : world) :
  let d := clock E (clock_reads w) in
  exists tail,
    trace (research E self rt w).1
    = (trace w ++ [EvNow d; EvTask (task_1_at self rt d); EvTask (task_2_at self rt d);
                   EvTask (task_3_at self rt d); EvKickoff (crew_at self rt d)] ++ tail)%list
    /\ (tail = [] \/ exists e, tail = [EvLogError e])
    /\ is_ValidationError (research E self rt w).2 = false.
Proof.
  intros d. rewrite research_eq. fold d.
  destruct (kickoff E (crew_at self rt d)) as [what|out].
  - exists []. simpl. auto.
  - match goal with |- context [finish out ?w1] =>
      destruct (finish_cases out w1) as [(r & _ & ->)|[(e & _ & _ & ->)|(e & _ & Hc & ->)]]
    end.
    + exists []. simpl. auto.
    + exists [EvLogError e]. simpl. rewrite <- app_assoc. simpl. eauto.
    + exists []. simpl. split; [reflexivity|]. split; [auto|].
      destruct e; try discriminate Hc. reflexivity.
Qed.

Lemma research_adds_no_setup (E : Env) (self : ResearcherAgent) (rt : ResearchTopic)
    (w : world) (p : event -> bool) :
  (forall d, p (EvNow d) = false) -> (forall t, p (EvTask t) = false) ->
  (forall c, p (EvKickoff c) = false) -> (forall e, p (EvLogError e) = false) ->
  count p (trace (research E self rt w).1) = count p (trace w).
Proof.
  intros Hnow Htask Hkick Hlog.
  destruct (research_trace E self rt w) as (tail & -> & Htail & _).
  rewrite !count_app. simpl. rewrite Hnow, !Htask, Hkick.
  destruct Htail as [->|(e & ->)]; simpl; [|rewrite Hlog]; lia.
Qed.

(** A kickoff event in the trace of a run is the kickoff of [research]:
    the run is [research] from a world without logged errors, and the
    crew is the one built there. *)
Lemma kickoff_of_run (E : Env) (mr : AgentRunInput) (crew : Crew) :
  EvKickoff crew ∈ trace (run E mr boot).1 ->
  exists self rt w,
    run E mr boot = research E self rt w
    /\ crew = crew_at self rt (clock E (clock_reads w))
    /\ count is_logged_error (trace w) = 0.
Proof.
  intros Hin.
  assert (Hres : forall self rt w,
             run E mr boot = research E self rt w ->
             ~ EvKickoff crew ∈ trace w ->
             crew = crew_at self rt (clock E (clock_reads w))).
  { intros self rt w Hrun Hnot.
    destruct (research_trace E self rt w) as (tail & Htr & Htail & _).
    rewrite Hrun, Htr in Hin. apply elem_of_app in Hin as [Hin|Hin]; [contradiction|].
    rewrite list_elem_of_In in Hin. simpl in Hin.
    destruct Hin as [H|[H|[H|[H|[H|H]]]]]; try discriminate H.
    - now injection H.
    - destruct Htail as [->|(e & ->)]; simpl in H; [contradiction|].
      destruct H as [H|[]]. discriminate H. }
  by_run_outcome E mr Hrun.
  - rewrite Hrun in Hin. absent_from_trace Hin.
  - rewrite Hrun in Hin. absent_from_trace Hin.
  - eexists _, _, _. split; [exact Hrun|]. split; [|reflexivity].
    apply (Hres _ _ _ Hrun). intros H. absent_from_trace H.
  - eexists _, _, _. split; [exact Hrun|]. split; [|reflexivity].
    apply (Hres _ _ _ Hrun). intros H. absent_from_trace H.
Qed.

(** ** Shaping the result *)

Lemma shape_results_ok (out : crew_output) (r : gmap string pyval) :
  shape_results out = Ok r ->
  exists k s f,
    result_get out "task_1" empty_dict = Ok k
    /\ result_get out "task_2" empty_dict = Ok s
    /\ result_get out "task_3" empty_dict = Ok f
    /\ r = <["keyword_analysis" := k]>
             (<["search_analysis" := s]> (<["final_recommendations" := f]> ∅)).
Proof.
  unfold shape_results.
  destruct (result_get out "task_1" empty_dict) as [k|e1]; [|discriminate].
  destruct (result_get out "task_2" empty_dict) as [s|e2]; [|discriminate].
  destruct (result_get out "task_3" empty_dict) as [f|e3]; [|discriminate].
  intros [= <-]. now exists k, s, f.
Qed.

Lemma shape_results_second_fails (out : crew_output) (k : pyval) (e : exn) :
  result_get out "task_1" empty_dict = Ok k ->
  result_get out "task_2" empty_dict = Raise e ->
  shape_results out = Raise e.
Proof. intros H1 H2. unfold shape_results. now rewrite H1, H2. Qed.

Lemma three_fields (k s f : pyval) :
  let r : gmap string pyval :=
    <["keyword_analysis" := k]>
      (<["search_analysis" := s]> (<["final_recommendations" := f]> ∅)) in
  dom r = ({[ "keyword_analysis"; "search_analysis"; "final_recommendations" ]} : gset string)
  /\ r !! "keyword_analysis" = Some k
  /\ r !! "search_analysis" = Some s
  /\ r !! "final_recommendations" = Some f.
Proof.
  intros r. unfold r. split.
  - rewrite !dom_insert_L, dom_empty_L. set_solver.
  - split; [apply lookup_insert_eq|].
    split.
    + rewrite lookup_insert_ne by discriminate. apply lookup_insert_eq.
    + rewrite !lookup_insert_ne by discriminate. apply lookup_insert_eq.
Qed.

(** When [research] returns, the crew answered and the result is either
    the three values read from the answer or, after a logged failure, the
    three empty mappings. *)
Lemma research_returns (E : Env) (self : ResearcherAgent) (rt : ResearchTopic)
    (w : world) (r : gmap string pyval) :
  (research E self rt w).2 = Ok r ->
  exists out,
    kickoff E (crew_at self rt (clock E (clock_reads w))) = inr out
    /\ EvKickoff (crew_at self rt (clock E (clock_reads w)))
       ∈ trace (research E self rt w).1
    /\ ((shape_results out = Ok r
         /\ count is_logged_error (trace (research E self rt w).1)
            = count is_logged_error (trace w))
        \/ (r = empty_results
            /\ count is_logged_error (trace (research E self rt w).1)
               = S (count is_logged_error (trace w)))).
Proof.
  intros Hret.
  destruct (research_trace E self rt w) as (tail & Htr & _ & _).
  assert (Hin : EvKickoff (crew_at self rt (clock E (clock_reads w)))
                ∈ trace (research E self rt w).1).
  { rewrite Htr, list_elem_of_In, !in_app_iff. simpl. tauto. }
  revert Hret Hin. rewrite research_eq.
  destruct (kickoff E (crew_at self rt (clock E (clock_reads w)))) as [what|out];
    [discriminate|].
  intros Hret Hin. exists out. split; [reflexivity|]. split; [exact Hin|].
  revert Hret.
  match goal with |- context [finish out ?w1] =>
    destruct (finish_cases out w1) as [(r' & Hs & ->)|[(e & _ & _ & ->)|(e & _ & _ & ->)]]
  end; simpl; intros [= <-].
  - left. split; [exact Hs|]. rewrite count_app. simpl. lia.
  - right. split; [reflexivity|]. rewrite !count_app. simpl. lia.
Qed.

(** * The specification against the code *)

(** ** C1: the shape of the result *)

(** C1, as the code has it. Whenever [run] returns, the result has
    exactly the three fields keyword_analysis, search_analysis and
    final_recommendations, all present. On the recovery path (one error
    logged) each is the empty mapping; otherwise each is what the crew
    output's [get] answered for task_1, task_2 and task_3, the empty
    mapping standing in for a key that a dictionary output lacks. Nothing
    makes such an answer a mapping. *)
Theorem C1_result_has_the_three_fields
    (E : Env) (mr : AgentRunInput) (r : gmap string pyval) :
  (run E mr boot).2 = Ok r ->
  dom r = ({[ "keyword_analysis"; "search_analysis"; "final_recommendations" ]} : gset string)
  /\ exists k s f crew out,
       r !! "keyword_analysis" = Some k
       /\ r !! "search_analysis" = Some s
       /\ r !! "final_recommendations" = Some f
       /\ EvKickoff crew ∈ trace (run E mr boot).1
       /\ kickoff E crew = inr out
       /\ ((count is_logged_error (trace (run E mr boot).1) = 0
            /\ result_get out "task_1" empty_dict = Ok k
            /\ result_get out "task_2" empty_dict = Ok s
            /\ result_get out "task_3" empty_dict = Ok f
            /\ forall d, out = OutDict d ->
                 k = default empty_dict (d !! "task_1")
                 /\ s = default empty_dict (d !! "task_2")
                 /\ f = default empty_dict (d !! "task_3"))
           \/ (count is_logged_error (trace (run E mr boot).1) = 1
               /\ k = empty_dict /\ s = empty_dict /\ f = empty_dict)).
Proof.
  intros Hret.
  assert (Hgo : exists self rt w,
             run E mr boot = research E self rt w
             /\ count is_logged_error (trace w) = 0).
  { by_run_outcome E mr Hrun;
      try (rewrite Hrun in Hret; discriminate Hret); eauto. }
  destruct Hgo as (self & rt & w & Hrun & Hlog).
  rewrite Hrun in Hret |- *.
  destruct (research_returns E self rt w r Hret) as (out & Hk & Hin & Hcase).
  destruct Hcase as [(Hs & Hcount)|(-> & Hcount)].
  - apply shape_results_ok in Hs as (k & s & f & H1 & H2 & H3 & ->).
    destruct (three_fields k s f) as (Hdom & Hk1 & Hk2 & Hk3).
    split; [exact Hdom|].
    exists k, s, f, (crew_at self rt (clock E (clock_reads w))), out.
    repeat (split; [assumption|]).
    left. rewrite Hcount, Hlog. repeat (split; [assumption || reflexivity|]).
    intros d ->. simpl in H1, H2, H3.
    injection H1 as <-. injection H2 as <-. injection H3 as <-.
    repeat split; unfold default; now destruct (d !! _).
  - destruct (three_fields empty_dict empty_dict empty_dict) as (Hdom & Hk1 & Hk2 & Hk3).
    split; [exact Hdom|].
    exists empty_dict, empty_dict, empty_dict,
           (crew_at self rt (clock E (clock_reads w))), out.
    repeat (split; [assumption|]).
    right. rewrite Hcount, Hlog. auto.
Qed.

Lemma C1_result_has_the_three_fields_witness :
  (run (Examples.env (inr Examples.full_output))
       (Examples.request (InputsModel Examples.bare_params)) boot).2
  = Ok (<["keyword_analysis" := Examples.phrases]>
          (<["search_analysis" := PyDict ∅]>
             (<["final_recommendations" := Examples.phrases]> ∅)))
  /\ dom (<["keyword_analysis" := Examples.phrases]>
            (<["search_analysis" := PyDict ∅]>
               (<["final_recommendations" := Examples.phrases]> (∅ : gmap string pyval))))
     = ({[ "keyword_analysis"; "search_analysis"; "final_recommendations" ]} : gset string).
Proof.
  assert (H : (run (Examples.env (inr Examples.full_output))
                   (Examples.request (InputsModel Examples.bare_params)) boot).2
              = Ok (<["keyword_analysis" := Examples.phrases]>
                      (<["search_analysis" := PyDict ∅]>
                         (<["final_recommendations" := Examples.phrases]> ∅))))
    by reflexivity.
  split; [exact H|].
  exact (proj1 (C1_result_has_the_three_fields _ _ _ H)).
Defined.

(** C1 as stated fails: when the crew output holds plain text under
    task_1, [run] returns it as keyword_analysis, which then is not a
    mapping. *)
Lemma C1_text_stage_output_is_returned_as_text :
  exists r v,
    (run (Examples.env (inr Examples.text_output))
         (Examples.request (InputsModel Examples.bare_params)) boot).2 = Ok r
    /\ r !! "keyword_analysis" = Some v
    /\ is_mapping v = false.
Proof.
  exists (<["keyword_analysis" := PyStr "autonomous agents, agent frameworks"]>
            (<["search_analysis" := empty_dict]>
               (<["final_recommendations" := empty_dict]> ∅))),
         (PyStr "autonomous agents, agent frameworks").
  repeat split; reflexivity.
Qed.

(** ** C2: recovery from a result that cannot be read *)

(** C2, as the code has it. Recovery is for the result as a whole, not
    per field. When the run reaches the kickoff and the crew answers: if
    reading task_2 raises after task_1 was read, then either what is
    raised derives from Exception, and [run] still returns, with all three
    fields the empty mapping, keyword_analysis included; or it does not,
    and [run] raises it. If the answer is a dictionary, no reading fails
    and nothing is logged: each field is what the dictionary holds under
    task_1, task_2 or task_3, or the empty mapping when the key is absent;
    so a dictionary without task_2 gives the empty mapping as
    search_analysis while the other two fields are what the dictionary
    holds. *)
Theorem C2_recovery_replaces_the_whole_result
    (E : Env) (mr : AgentRunInput) (crew : Crew) (out : crew_output) :
  EvKickoff crew ∈ trace (run E mr boot).1 ->
  kickoff E crew = inr out ->
  (forall k e,
     result_get out "task_1" empty_dict = Ok k ->
     result_get out "task_2" empty_dict = Raise e ->
     caught_by_except_Exception e = true ->
     exists r,
       (run E mr boot).2 = Ok r
       /\ r !! "keyword_analysis" = Some empty_dict
       /\ r !! "search_analysis" = Some empty_dict
       /\ r !! "final_recommendations" = Some empty_dict)
  /\ (forall d,
        out = OutDict d -> d !! "task_2" = None ->
        exists r,
          (run E mr boot).2 = Ok r
          /\ r !! "keyword_analysis" = Some (default empty_dict (d !! "task_1"))
          /\ r !! "search_analysis" = Some empty_dict
          /\ r !! "final_recommendations" = Some (default empty_dict (d !! "task_3")))
  /\ (forall k e,
        result_get out "task_1" empty_dict = Ok k ->
        result_get out "task_2" empty_dict = Raise e ->
        caught_by_except_Exception e = false ->
        (run E mr boot).2 = Raise e)
  /\ (forall d,
        out = OutDict d ->
        count is_logged_error (trace (run E mr boot).1) = 0
        /\ exists r,
             (run E mr boot).2 = Ok r
             /\ r !! "keyword_analysis" = Some (default empty_dict (d !! "task_1"))
             /\ r !! "search_analysis" = Some (default empty_dict (d !! "task_2"))
             /\ r !! "final_recommendations" = Some (default empty_dict (d !! "task_3"))).
Proof.
  intros Hin Hk.
  destruct (kickoff_of_run E mr crew Hin) as (self & rt & w & Hrun & -> & Hlog).
  rewrite Hrun, research_eq, Hk.
  assert (Hdict : forall d,
             shape_results (OutDict d)
             = Ok (<["keyword_analysis" := default empty_dict (d !! "task_1")]>
                     (<["search_analysis" := default empty_dict (d !! "task_2")]>
                        (<["final_recommendations" := default empty_dict (d !! "task_3")]>
                           ∅)))).
  { intros d. unfold shape_results, default. simpl.
    destruct (d !! "task_1"), (d !! "task_2"), (d !! "task_3"); reflexivity. }
  split; [|split; [|split]].
  - intros k e H1 H2 Hc.
    unfold finish. rewrite (shape_results_second_fails out k e H1 H2), Hc.
    exists empty_results. split; [reflexivity|].
    apply (three_fields empty_dict empty_dict empty_dict).
  - intros d -> Hd. unfold finish. rewrite Hdict, Hd.
    eexists. split; [reflexivity|]. apply three_fields.
  - intros k e H1 H2 Hc.
    unfold finish. now rewrite (shape_results_second_fails out k e H1 H2), Hc.
  - intros d ->. unfold finish. rewrite Hdict. split.
    + simpl. rewrite count_app, Hlog. reflexivity.
    + eexists. split; [reflexivity|]. apply three_fields.
Qed.

Lemma C2_recovery_replaces_the_whole_result_witness :
  EvKickoff (crew_at Examples.researcher Examples.bare_topic Examples.a_saturday_morning)
    ∈ trace (run (Examples.env (inr Examples.second_stage_unreadable))
                 (Examples.request (InputsModel Examples.bare_params)) boot).1
  /\ kickoff (Examples.env (inr Examples.second_stage_unreadable))
             (crew_at Examples.researcher Examples.bare_topic Examples.a_saturday_morning)
     = inr Examples.second_stage_unreadable
  /\ result_get Examples.second_stage_unreadable "task_1" empty_dict = Ok Examples.phrases
  /\ result_get Examples.second_stage_unreadable "task_2" empty_dict
     = Raise (Raised "KeyError" true)
  /\ caught_by_except_Exception (Raised "KeyError" true) = true
  /\ exists r,
       (run (Examples.env (inr Examples.second_stage_unreadable))
            (Examples.request (InputsModel Examples.bare_params)) boot).2 = Ok r
       /\ r !! "keyword_analysis" = Some empty_dict
       /\ r !! "search_analysis" = Some empty_dict
       /\ r !! "final_recommendations" = Some empty_dict.
Proof.
  assert (Hin : EvKickoff (crew_at Examples.researcher Examples.bare_topic
                                   Examples.a_saturday_morning)
                ∈ trace (run (Examples.env (inr Examples.second_stage_unreadable))
                             (Examples.request (InputsModel Examples.bare_params)) boot).1).
  { apply list_elem_of_In. vm_compute. do 11 right. left. reflexivity. }
  split; [exact Hin|]. split; [reflexivity|].
  split; [reflexivity|]. split; [reflexivity|]. split; [reflexivity|].
  exact (proj1 (C2_recovery_replaces_the_whole_result _ _ _ _ Hin eq_refl)
               Examples.phrases (Raised "KeyError" true) eq_refl eq_refl eq_refl).
Defined.

(** C2 as stated fails: the crew output answers task_1 and task_3 with
    a non-empty mapping and raises on task_2; [run] returns, and
    keyword_analysis is the empty mapping, not the value that was read. *)
Lemma C2_one_unreadable_stage_empties_every_field :
  result_get Examples.second_stage_unreadable "task_1" empty_dict = Ok Examples.phrases
  /\ result_get Examples.second_stage_unreadable "task_3" empty_dict = Ok Examples.phrases
  /\ result_get Examples.second_stage_unreadable "task_2" empty_dict
     = Raise (Raised "KeyError" true)
  /\ Examples.phrases <> empty_dict
  /\ exists r,
       (run (Examples.env (inr Examples.second_stage_unreadable))
            (Examples.request (InputsModel Examples.bare_params)) boot).2 = Ok r
       /\ r !! "keyword_analysis" = Some empty_dict
       /\ r !! "final_recommendations" = Some empty_dict.
Proof.
  split; [reflexivity|]. split; [reflexivity|]. split; [reflexivity|].
  split.
  - intros H.
    apply (f_equal (fun v => match v with
                             | PyDict d => d !! "phrases"
                             | _ => None
                             end)) in H.
    discriminate H.
  - exists empty_results. repeat split; reflexivity.
Qed.

Example a_dictionary_without_task_2 :
  (run (Examples.env (inr Examples.output_without_task_2))
       (Examples.request (InputsModel Examples.bare_params)) boot).2
  = Ok (<["keyword_analysis" := Examples.phrases]>
          (<["search_analysis" := empty_dict]>
             (<["final_recommendations" := Examples.phrases]> ∅))).
Proof. reflexivity. Qed.

(** ** C3: a request without a topic *)

(** C3, as the code has it. A request dictionary that names no topic
    fails validation with a ValidationError that points at research_topic,
    and the run ends there: the clock is not read, no task is built and no
    stage is kicked off. A topic that is the empty text is not a failure:
    the topic field accepts it, and no error ever points at it. *)
Theorem C3_missing_topic_fails_before_any_stage
    (E : Env) (mr : AgentRunInput) (kw : gmap string pyval) :
  naptha_sdk.inputs mr = InputsDict kw ->
  topic_missing kw = true ->
  (exists w locs,
     run E mr boot = (w, Raise (ValidationError locs))
     /\ (["research_topic"] ∈ locs \/ ["research_topic"; "topic"] ∈ locs)
     /\ count is_clock_read (trace w) = 0
     /\ count is_task_init (trace w) = 0
     /\ count is_kickoff (trace w) = 0)
  /\ forall t : gmap string pyval,
       t !! "topic" = Some (PyStr "") ->
       pydantic.required (pydantic.str_field (coercions E)) t "topic" = Some ""
       /\ forall locs,
            pydantic.ResearchTopic_init (coercions E) t = inl locs -> ["topic"] ∉ locs.
Proof.
  intros Hin Hmiss. split; [|apply empty_topic_is_no_failure].
  destruct (run_eq E mr boot) as (self & _ & ->). rewrite Hin.
  destruct (missing_topic_is_rejected (coercions E) kw Hmiss) as (locs & -> & Hloc).
  eexists _, locs. split; [reflexivity|]. split; [exact Hloc|].
  simpl. auto.
Qed.

Lemma C3_missing_topic_fails_before_any_stage_witness :
  naptha_sdk.inputs (Examples.request (InputsDict Examples.without_topic))
  = InputsDict Examples.without_topic
  /\ topic_missing Examples.without_topic = true
  /\ (exists w locs,
        run (Examples.env (inr Examples.full_output))
            (Examples.request (InputsDict Examples.without_topic)) boot
        = (w, Raise (ValidationError locs))
        /\ (["research_topic"] ∈ locs \/ ["research_topic"; "topic"] ∈ locs)
        /\ count is_clock_read (trace w) = 0
        /\ count is_task_init (trace w) = 0
        /\ count is_kickoff (trace w) = 0).
Proof.
  assert (H : topic_missing Examples.without_topic = true) by reflexivity.
  split; [reflexivity|]. split; [exact H|].
  exact (proj1 (C3_missing_topic_fails_before_any_stage
                  (Examples.env (inr Examples.full_output))
                  (Examples.request (InputsDict Examples.without_topic))
                  Examples.without_topic eq_refl H)).
Defined.

(** C3 as stated fails: a request whose topic is the empty text passes
    validation, and the run goes on to return a result. *)
Lemma C3_empty_topic_is_accepted :
  pydantic.InputSchema_init Examples.strict Examples.with_empty_topic
  = inr {| schemas.research_topic :=
             {| schemas.topic := ""; schemas.context := None;
                schemas.depth := Some "comprehensive";
                schemas.research_objective := None; schemas.specific_focus := None |};
           schemas.max_sources := Some 5%Z; schemas.include_citations := Some true |}
  /\ is_ValidationError
       (run (Examples.env (inr Examples.full_output))
            (Examples.request (InputsDict Examples.with_empty_topic)) boot).2 = false
  /\ returns
       (run (Examples.env (inr Examples.full_output))
            (Examples.request (InputsDict Examples.with_empty_topic)) boot).2 = true.
Proof. repeat split; reflexivity. Qed.

(** ** C4: the description of the first stage *)

(** C4, as the code has it. For a topic whose research_objective and
    specific_focus are both absent, the description of the first stage
    contains the topic text, and each absent field is printed as the word
    None between its quotation marks. *)
Theorem C4_absent_fields_print_as_None
    (E : Env) (self : ResearcherAgent) (rt : ResearchTopic) (w : world) :
  schemas.research_objective rt = None ->
  schemas.specific_focus rt = None ->
  exists t1 rest,
    (create_tasks E self rt w).2 = Ok (t1 :: rest)
    /\ Text.contains (schemas.topic rt) (description t1) = true
    /\ Text.contains ("RESEARCH OBJECTIVE: " +:+ Text.dq +:+ "None" +:+ Text.dq)
                     (description t1) = true
    /\ Text.contains ("SPECIFIC FOCUS: " +:+ Text.dq +:+ "None" +:+ Text.dq)
                     (description t1) = true.
Proof.
  intros Hobj Hfocus. rewrite create_tasks_eq.
  set (d := clock E (clock_reads w)).
  exists (task_1_at self rt d), [task_2_at self rt d; task_3_at self rt d].
  split; [reflexivity|].
  change (description (task_1_at self rt d)) with (keyword_analysis_description rt).
  destruct (description_shows_topic rt) as (a1 & H1).
  destruct (description_shows_optional_fields rt) as (a2 & H2).
  rewrite Hobj, Hfocus in H2. simpl format_optional in H2.
  split; [|split].
  - rewrite H1. apply contains_middle.
  - rewrite H2. apply contains_middle.
  - rewrite H2. do 3 apply contains_later. apply contains_here.
Qed.

Lemma C4_absent_fields_print_as_None_witness :
  schemas.research_objective Examples.bare_topic = None
  /\ schemas.specific_focus Examples.bare_topic = None
  /\ exists t1 rest,
       (create_tasks (Examples.env (inr Examples.full_output)) Examples.researcher
                     Examples.bare_topic boot).2 = Ok (t1 :: rest)
       /\ Text.contains (schemas.topic Examples.bare_topic) (description t1) = true
       /\ Text.contains ("RESEARCH OBJECTIVE: " +:+ Text.dq +:+ "None" +:+ Text.dq)
                        (description t1) = true
       /\ Text.contains ("SPECIFIC FOCUS: " +:+ Text.dq +:+ "None" +:+ Text.dq)
                        (description t1) = true.
Proof.
  split; [reflexivity|]. split; [reflexivity|].
  exact (C4_absent_fields_print_as_None
           (Examples.env (inr Examples.full_output)) Examples.researcher
           Examples.bare_topic boot eq_refl eq_refl).
Defined.

(** C4 as stated fails: with both optional fields absent, the
    description of the first stage built for the topic AI agents has the
    substring None in it. *)
Lemma C4_description_mentions_None :
  schemas.research_objective Examples.bare_topic = None
  /\ schemas.specific_focus Examples.bare_topic = None
  /\ exists t1 rest,
       (create_tasks (Examples.env (inr Examples.full_output)) Examples.researcher
                     Examples.bare_topic boot).2 = Ok (t1 :: rest)
       /\ Text.contains "None" (description t1) = true.
Proof.
  split; [reflexivity|]. split; [reflexivity|].
  exists (task_1_at Examples.researcher Examples.bare_topic Examples.a_saturday_morning),
         [task_2_at Examples.researcher Examples.bare_topic Examples.a_saturday_morning;
          task_3_at Examples.researcher Examples.bare_topic Examples.a_saturday_morning].
  split; reflexivity.
Qed.

(** ** C5: the pipeline *)

(** C5. The pipeline [create_tasks] builds is the three stages
    keyword_analysis, search_analysis, final_recommendations in that order;
    the first has no context, each later one has exactly the stage before
    it as context, so that the first stage is not in the context of the
    third; this list, run sequentially, is the crew that [research] kicks
    off, and every crew kicked off in a run has this shape. *)
Theorem C5_pipeline_is_a_linear_chain
    (E : Env) (self : ResearcherAgent) (rt : ResearchTopic) (w : world) :
  exists t1 t2 t3 crew,
    (create_tasks E self rt w).2 = Ok [t1; t2; t3]
    /\ context t1 = [] /\ context t2 = [t1] /\ context t3 = [t2]
    /\ agent t1 = keyword_researcher self
    /\ agent t2 = search_analyst self
    /\ agent t3 = insights_compiler self
    /\ Text.starts_with "output-files/keyword_analysis_" (output_file t1) = true
    /\ Text.starts_with "output-files/search_analysis_" (output_file t2) = true
    /\ Text.starts_with "output-files/final_recommendations_" (output_file t3) = true
    /\ (t1 ∉ context t3)
    /\ EvKickoff crew ∈ trace (research E self rt w).1
    /\ tasks crew = [t1; t2; t3]
    /\ process crew = sequential
    /\ forall mr c,
         EvKickoff c ∈ trace (run E mr boot).1 ->
         exists u1 u2 u3,
           tasks c = [u1; u2; u3]
           /\ context u1 = [] /\ context u2 = [u1] /\ context u3 = [u2]
           /\ process c = sequential.
Proof.
  set (d := clock E (clock_reads w)).
  exists (task_1_at self rt d), (task_2_at self rt d), (task_3_at self rt d),
         (crew_at self rt d).
  rewrite create_tasks_eq. fold d.
  do 10 (split; [reflexivity|]).
  split; [|split; [|split; [reflexivity|split; [reflexivity|]]]].
  - simpl. rewrite list_elem_of_In. simpl. intros [H|[]].
    apply (f_equal output_file) in H.
    apply (f_equal (Text.starts_with "output-files/s")) in H.
    discriminate H.
  - destruct (research_trace E self rt w) as (tail & -> & _ & _). fold d.
    rewrite list_elem_of_In, !in_app_iff. simpl. tauto.
  - intros mr c Hc.
    destruct (kickoff_of_run E mr c Hc) as (self' & rt' & w' & _ & -> & _).
    eexists _, _, _. repeat split; reflexivity.
Qed.

(** ** C6: the artifact paths *)

(** C6. Every artifact path is output-files/<stage>_<timestamp>.md,
    where the timestamp is the clock reading printed as YYYYMMDD_HHMMSS:
    for a reading with a four-digit year it has that shape, and its six
    numbers are the year, month, day, hour, minute and second of the
    reading. The clock is read exactly once while the tasks are built and
    exactly once in all of [research]. A call of [run] that gets to the
    pipeline, as every call that returns a result does, reads the clock
    exactly once, and this one reading names the three files, which differ
    in the stage name only; a call that stops before the pipeline builds
    no task and does not read the clock. *)
Theorem C6_artifacts_share_one_timestamp
    (E : Env) (self : ResearcherAgent) (rt : ResearchTopic) (w : world) :
  datetime.plausible (clock E (clock_reads w)) ->
  exists ts t1 t2 t3 w',
    create_tasks E self rt w = (w', Ok [t1; t2; t3])
    /\ datetime.is_timestamp ts = true
    /\ output_file t1 = "output-files/" +:+ "keyword_analysis" +:+ "_" +:+ ts +:+ ".md"
    /\ output_file t2 = "output-files/" +:+ "search_analysis" +:+ "_" +:+ ts +:+ ".md"
    /\ output_file t3 = "output-files/" +:+ "final_recommendations" +:+ "_" +:+ ts +:+ ".md"
    /\ clock_reads w' = S (clock_reads w)
    /\ count is_clock_read (trace w') = S (count is_clock_read (trace w))
    /\ clock_reads (research E self rt w).1 = S (clock_reads w)
    /\ (forall mr, clock_reads (run E mr boot).1 <= 1)
    /\ ts = datetime.strftime (clock E (clock_reads w))
    /\ read_timestamp ts = clock E (clock_reads w)
    /\ count is_clock_read (trace (research E self rt w).1)
       = S (count is_clock_read (trace w))
    /\ (datetime.plausible (clock E 0) ->
        datetime.is_timestamp (datetime.strftime (clock E 0)) = true
        /\ read_timestamp (datetime.strftime (clock E 0)) = clock E 0)
    /\ forall mr,
         (returns (run E mr boot).2 = true -> clock_reads (run E mr boot).1 = 1)
         /\ ((clock_reads (run E mr boot).1 = 0
              /\ clock_readings (trace (run E mr boot).1) = []
              /\ tasks_built (trace (run E mr boot).1) = []
              /\ returns (run E mr boot).2 = false)
             \/ (clock_reads (run E mr boot).1 = 1
                 /\ clock_readings (trace (run E mr boot).1) = [clock E 0]
                 /\ map output_file (tasks_built (trace (run E mr boot).1))
                    = ["output-files/" +:+ "keyword_analysis" +:+ "_"
                       +:+ datetime.strftime (clock E 0) +:+ ".md";
                       "output-files/" +:+ "search_analysis" +:+ "_"
                       +:+ datetime.strftime (clock E 0) +:+ ".md";
                       "output-files/" +:+ "final_recommendations" +:+ "_"
                       +:+ datetime.strftime (clock E 0) +:+ ".md"])).
Proof.
  intros Hd. set (d := clock E (clock_reads w)) in *.
  exists (datetime.strftime d), (task_1_at self rt d), (task_2_at self rt d),
         (task_3_at self rt d).
  eexists. split; [apply create_tasks_eq|].
  split; [now apply strftime_is_timestamp|].
  do 3 (split; [reflexivity|]).
  split; [reflexivity|].
  split; [simpl; rewrite count_app; simpl; lia|].
  split; [apply research_clock|].
  split; [apply run_clock|].
  split; [reflexivity|].
  split; [now apply timestamp_reads_back|].
  split.
  { destruct (research_trace E self rt w) as (tail & -> & Htail & _).
    rewrite !count_app. destruct Htail as [->|(e & ->)]; simpl; lia. }
  split.
  { intros H0. split; [now apply strftime_is_timestamp | now apply timestamp_reads_back]. }
  intros mr.
  assert (Hgo : forall self0 rt0 w0,
             run E mr boot = research E self0 rt0 w0 ->
             clock_reads w0 = 0 -> clock_readings (trace w0) = [] ->
             tasks_built (trace w0) = [] ->
             (forall tail, clock_readings (trace w0 ++ tail) = clock_readings tail
                           /\ tasks_built (trace w0 ++ tail) = tasks_built tail) ->
             clock_reads (run E mr boot).1 = 1
             /\ clock_readings (trace (run E mr boot).1) = [clock E 0]
             /\ map output_file (tasks_built (trace (run E mr boot).1))
                = ["output-files/" +:+ "keyword_analysis" +:+ "_"
                   +:+ datetime.strftime (clock E 0) +:+ ".md";
                   "output-files/" +:+ "search_analysis" +:+ "_"
                   +:+ datetime.strftime (clock E 0) +:+ ".md";
                   "output-files/" +:+ "final_recommendations" +:+ "_"
                   +:+ datetime.strftime (clock E 0) +:+ ".md"]).
  { intros self0 rt0 w0 Hrun Hc Hr Ht Happ. rewrite Hrun.
    split; [rewrite research_clock; now rewrite Hc|].
    destruct (research_trace E self0 rt0 w0) as (tail & -> & Htail & _).
    rewrite Hc.
    destruct (Happ ([EvNow (clock E 0); EvTask (task_1_at self0 rt0 (clock E 0));
                     EvTask (task_2_at self0 rt0 (clock E 0));
                     EvTask (task_3_at self0 rt0 (clock E 0));
                     EvKickoff (crew_at self0 rt0 (clock E 0))] ++ tail)%list)
      as (-> & ->).
    destruct Htail as [->|(e & ->)]; split; reflexivity. }
  by_run_outcome E mr Hrun.
  - rewrite Hrun. simpl. split; [discriminate|]. left. repeat split.
  - rewrite Hrun. simpl. split; [discriminate|]. left. repeat split.
  - destruct (Hgo _ _ _ Hrun eq_refl eq_refl eq_refl (fun tail => conj eq_refl eq_refl))
      as (H1 & H2 & H3).
    split; [intros _; exact H1|]. right. auto.
  - destruct (Hgo _ _ _ Hrun eq_refl eq_refl eq_refl (fun tail => conj eq_refl eq_refl))
      as (H1 & H2 & H3).
    split; [intros _; exact H1|]. right. auto.
Qed.

Lemma C6_artifacts_share_one_timestamp_witness :
  datetime.plausible (clock (Examples.env (inr Examples.full_output)) (clock_reads boot))
  /\ exists ts t1 t2 t3 w',
       create_tasks (Examples.env (inr Examples.full_output)) Examples.researcher
                    Examples.bare_topic boot = (w', Ok [t1; t2; t3])
       /\ datetime.is_timestamp ts = true
       /\ read_timestamp ts = Examples.a_saturday_morning
       /\ output_file t1 = "output-files/" +:+ "keyword_analysis" +:+ "_" +:+ ts +:+ ".md"
       /\ output_file t2 = "output-files/" +:+ "search_analysis" +:+ "_" +:+ ts +:+ ".md"
       /\ output_file t3 = "output-files/" +:+ "final_recommendations" +:+ "_" +:+ ts +:+ ".md"
       /\ clock_reads w' = S (clock_reads boot)
       /\ clock_reads
            (run (Examples.env (inr Examples.full_output))
                 (Examples.request (InputsModel Examples.bare_params)) boot).1 = 1.
Proof.
  assert (H : datetime.plausible
                (clock (Examples.env (inr Examples.full_output)) (clock_reads boot))).
  { unfold datetime.plausible. simpl. lia. }
  split; [exact H|].
  destruct (C6_artifacts_share_one_timestamp
              (Examples.env (inr Examples.full_output)) Examples.researcher
              Examples.bare_topic boot H)
    as (ts & t1 & t2 & t3 & w' & Hc & Hshape & H1 & H2 & H3 & Hreads & _ & _ & _ & _
        & Hback & _ & _ & Hrun).
  exists ts, t1, t2, t3, w'.
  repeat (split; [assumption|]).
  exact (proj1 (Hrun (Examples.request (InputsModel Examples.bare_params))) eq_refl).
Defined.

(** ** C7: max_sources *)

(** C7, as the code has it. An integer under max_sources is never a
    reason to fail, whatever its sign: the request with max_sources set to
    the integer [z] is accepted exactly when the request without the key
    is, with the same error locations when it is not and never one at
    max_sources; the accepted value is [z] itself, and 5 when the key is
    absent. *)
Theorem C7_any_integer_is_accepted (C : Coercions) (kw : gmap string pyval) (z : Z) :
  match pydantic.InputSchema_init C (delete "max_sources" kw) with
  | inr p =>
      schemas.max_sources p = Some 5%Z
      /\ pydantic.InputSchema_init C (<["max_sources" := PyInt z]> kw)
         = inr {| schemas.research_topic := schemas.research_topic p;
                  schemas.max_sources := Some z;
                  schemas.include_citations := schemas.include_citations p |}
  | inl locs =>
      pydantic.InputSchema_init C (<["max_sources" := PyInt z]> kw) = inl locs
      /\ ["max_sources"] ∉ locs
  end.
Proof.
  unfold pydantic.InputSchema_init, pydantic.with_default.
  rewrite lookup_delete_eq, lookup_insert_eq.
  rewrite !lookup_delete_ne, !lookup_insert_ne by discriminate.
  simpl.
  destruct (match kw !! "research_topic" with
            | Some v => pydantic.topic_field C v
            | None => inl [[]]
            end) as [locs|t].
  - split; [reflexivity|].
    rewrite list_elem_of_In, in_app_iff, in_map_iff.
    intros [(l & Hl & _)|Hin]; [discriminate Hl|].
    destruct (match kw !! "include_citations" with
              | Some v => pydantic.optional (pydantic.bool_field C) v
              | None => Some (Some true)
              end); simpl in Hin; intuition discriminate.
  - destruct (match kw !! "include_citations" with
              | Some v => pydantic.optional (pydantic.bool_field C) v
              | None => Some (Some true)
              end) as [c|]; simpl.
    + split; reflexivity.
    + split; [reflexivity|]. rewrite list_elem_of_In. simpl. intuition discriminate.
Qed.

(** C7 as stated fails: zero and a negative number pass validation as
    max_sources and are stored as they are. *)
Lemma C7_zero_and_negative_sources_pass :
  pydantic.InputSchema_init Examples.strict Examples.with_no_sources
  = inr {| schemas.research_topic := Examples.bare_topic;
           schemas.max_sources := Some 0%Z; schemas.include_citations := Some true |}
  /\ pydantic.InputSchema_init Examples.strict Examples.with_negative_sources
     = inr {| schemas.research_topic := Examples.bare_topic;
              schemas.max_sources := Some (-3)%Z; schemas.include_citations := Some true |}
  /\ is_ValidationError
       (run (Examples.env (inr Examples.full_output))
            (Examples.request (InputsDict Examples.with_no_sources)) boot).2 = false.
Proof. repeat split; reflexivity. Qed.

(** ** C8: the language model of the Roles *)

(** C8, evaluated where it fails. The descriptor asks for gpt-3.5-turbo
    at temperature 0.2; the agent keeps that in [llm_config], and the three
    Roles it builds share one model object, for gpt-4o at temperature
    0.7. *)
Theorem C8_descriptor_model_is_not_used :
  exists self,
    (ResearcherAgent_init (Examples.request InputsNone) boot).2 = Ok self
    /\ llm_config self
       = {| naptha_sdk.model := "gpt-3.5-turbo"; naptha_sdk.temperature := 2 # 10 |}
    /\ llm (keyword_researcher self)
       = {| llm_addr := 3; model_name := "gpt-4o"; temperature := 7 # 10 |}
    /\ llm (search_analyst self) = llm (keyword_researcher self)
    /\ llm (insights_compiler self) = llm (keyword_researcher self)
    /\ model_name (llm (keyword_researcher self)) <> naptha_sdk.model (llm_config self)
    /\ ~ (temperature (llm (keyword_researcher self))
          == naptha_sdk.temperature (llm_config self))%Q.
Proof.
  exists Examples.researcher.
  split; [apply researcher_is_built|].
  do 4 (split; [reflexivity|]).
  split.
  - simpl. intros H. discriminate H.
  - simpl. unfold Qeq. simpl. intros H. discriminate H.
Qed.

(** ** C9: setup and validation *)

(** C9, as the code has it. Every run first builds the three tool
    clients, the language model and the three Roles, and validates the
    request afterwards: the trace of a run begins with these seven setup
    events and holds no validation before them; a request that fails
    validation has had them all built, and the validation event is the one
    thing that follows. *)
Theorem C9_setup_precedes_validation (E : Env) (mr : AgentRunInput) :
  exists self rest,
    trace (run E mr boot).1 = (setup_events self ++ rest)%list
    /\ count is_tool_init (setup_events self) = 3
    /\ count is_llm_init (setup_events self) = 1
    /\ count is_agent_init (setup_events self) = 3
    /\ count is_validation (setup_events self) = 0
    /\ count is_tool_init rest = 0
    /\ count is_agent_init rest = 0
    /\ (is_ValidationError (run E mr boot).2 = true ->
        exists kw, naptha_sdk.inputs mr = InputsDict kw /\ rest = [EvValidate kw]).
Proof.
  destruct (run_outcomes E mr) as [self kw locs _ Hin _ Hrun | self cls _ _ Hrun
                                  | self kw p _ Hin _ Hrun | self p _ _ Hrun].
  - exists self, [EvValidate kw]. rewrite Hrun. simpl. repeat split; eauto.
  - exists self, []. rewrite Hrun. simpl.
    repeat split; try reflexivity. discriminate.
  - destruct (research_trace E self (schemas.research_topic p)
                (logged [EvValidate kw] (after_setup self boot)))
      as (tail & Htr & Htail & Hval).
    rewrite <- Hrun in Htr, Hval. eexists self, _. rewrite Htr, Hval.
    split; [simpl; reflexivity|].
    repeat split; try reflexivity; try discriminate.
    all: destruct Htail as [->|(e & ->)]; reflexivity.
  - destruct (research_trace E self (schemas.research_topic p) (after_setup self boot))
      as (tail & Htr & Htail & Hval).
    rewrite <- Hrun in Htr, Hval. eexists self, _. rewrite Htr, Hval.
    split; [simpl; reflexivity|].
    repeat split; try reflexivity; try discriminate.
    all: destruct Htail as [->|(e & ->)]; reflexivity.
Qed.

(** C9 as stated fails: the empty request fails validation, and by then
    the three tool clients and the three Roles have been built. *)
Lemma C9_invalid_request_still_builds_tools_and_roles :
  is_ValidationError
    (run (Examples.env (inr Examples.full_output)) (Examples.request (InputsDict ∅)) boot).2
  = true
  /\ count is_tool_init
       (trace (run (Examples.env (inr Examples.full_output))
                   (Examples.request (InputsDict ∅)) boot).1) = 3
  /\ count is_agent_init
       (trace (run (Examples.env (inr Examples.full_output))
                   (Examples.request (InputsDict ∅)) boot).1) = 3.
Proof. repeat split; reflexivity. Qed.

(** ** C10: inputs that are not a dictionary *)

(** C10. When the inputs of a run are not a dictionary, nothing is
    validated or coerced: the trace holds no validation event and the run
    never ends in a ValidationError. A model instance is used as it is,
    the run being [research] on its research_topic; text and nothing have
    no research_topic, which is an AttributeError. *)
Theorem C10_no_validation_unless_dict (E : Env) (mr : AgentRunInput) :
  is_dict (naptha_sdk.inputs mr) = false ->
  is_ValidationError (run E mr boot).2 = false
  /\ count is_validation (trace (run E mr boot).1) = 0
  /\ (forall p, naptha_sdk.inputs mr = InputsModel p ->
      exists self,
        built_by_init mr self
        /\ run E mr boot
           = research E self (schemas.research_topic p) (after_setup self boot))
  /\ (naptha_sdk.inputs mr = InputsNone \/ (exists s, naptha_sdk.inputs mr = InputsText s) ->
      exists cls, (run E mr boot).2 = Raise (AttributeError cls "research_topic")).
Proof.
  intros Hnd.
  destruct (run_eq E mr boot) as (self & Hb & Hrun).
  destruct (naptha_sdk.inputs mr) as [kw|p|s|] eqn:Hin; [discriminate Hnd| | |].
  - destruct (research_trace E self (schemas.research_topic p) (after_setup self boot))
      as (tail & _ & _ & Hval).
    rewrite Hrun. split; [exact Hval|]. split; [|split].
    + now rewrite research_adds_no_setup.
    + intros p' Hp'. injection Hp' as <-. eauto.
    + intros [H|(s & H)]; discriminate H.
  - rewrite Hrun. simpl. split; [reflexivity|]. split; [reflexivity|]. split.
    + intros p Hp. discriminate Hp.
    + intros _. eauto.
  - rewrite Hrun. simpl. split; [reflexivity|]. split; [reflexivity|]. split.
    + intros p Hp. discriminate Hp.
    + intros _. eauto.
Qed.

Lemma C10_no_validation_unless_dict_witness :
  is_dict (naptha_sdk.inputs (Examples.request (InputsText "AI agents"))) = false
  /\ is_ValidationError
       (run (Examples.env (inr Examples.full_output))
            (Examples.request (InputsText "AI agents")) boot).2 = false
  /\ count is_validation
       (trace (run (Examples.env (inr Examples.full_output))
                   (Examples.request (InputsText "AI agents")) boot).1) = 0.
Proof.
  split; [reflexivity|].
  pose proof (C10_no_validation_unless_dict
                (Examples.env (inr Examples.full_output))
                (Examples.request (InputsText "AI agents")) eq_refl) as (H1 & H2 & _).
  split; [exact H1 | exact H2].
Defined.

(** * More of the code *)

(** ** schemas.py: what the two request models accept *)

Lemma not_a_field (k f : string) (fields : list string) :
  k ∉ fields -> f ∈ fields -> k <> f.
Proof. intros Hk Hf ->. contradiction. Qed.

Lemma ResearchTopic_init_extra_key (C : Coercions) (t : gmap string pyval)
    (k : string) (v : pyval) :
  k ∉ ResearchTopic_fields ->
  pydantic.ResearchTopic_init C (<[k := v]> t) = pydantic.ResearchTopic_init C t.
Proof.
  intros Hk.
  assert (Hne : forall f, f ∈ ResearchTopic_fields -> (<[k := v]> t) !! f = t !! f).
  { intros f Hf. apply lookup_insert_ne. now apply (not_a_field k f ResearchTopic_fields). }
  unfold pydantic.ResearchTopic_init, pydantic.required, pydantic.with_default.
  rewrite !Hne; [reflexivity| | | | |];
    unfold ResearchTopic_fields; rewrite list_elem_of_In; simpl; tauto.
Qed.

(** X1. Keys that name no field are ignored, at both levels of a
    request: adding one to the request dictionary, or to the dictionary
    under research_topic, changes neither the outcome of validation nor
    the validated value. *)
Theorem X1_unknown_keys_are_ignored
    (C : Coercions) (kw t : gmap string pyval) (k k' : string) (v v' : pyval) :
  k ∉ InputSchema_fields ->
  k' ∉ ResearchTopic_fields ->
  pydantic.InputSchema_init C (<[k := v]> kw) = pydantic.InputSchema_init C kw
  /\ pydantic.InputSchema_init C (<["research_topic" := PyDict (<[k' := v']> t)]> kw)
     = pydantic.InputSchema_init C (<["research_topic" := PyDict t]> kw).
Proof.
  intros Hk Hk'. split.
  - assert (Hne : forall f, f ∈ InputSchema_fields -> (<[k := v]> kw) !! f = kw !! f).
    { intros f Hf. apply lookup_insert_ne. now apply (not_a_field k f InputSchema_fields). }
    unfold pydantic.InputSchema_init, pydantic.with_default.
    rewrite !Hne; [reflexivity| | |];
      unfold InputSchema_fields; rewrite list_elem_of_In; simpl; tauto.
  - unfold pydantic.InputSchema_init, pydantic.with_default.
    rewrite !lookup_insert_eq, !lookup_insert_ne by discriminate.
    unfold pydantic.topic_field. now rewrite ResearchTopic_init_extra_key.
Qed.

Lemma X1_unknown_keys_are_ignored_witness :
  ("priority" ∉ InputSchema_fields)
  /\ ("language" ∉ ResearchTopic_fields)
  /\ pydantic.InputSchema_init Examples.strict
       (<["priority" := PyInt 1]> Examples.with_empty_topic)
     = pydantic.InputSchema_init Examples.strict Examples.with_empty_topic
  /\ pydantic.InputSchema_init Examples.strict
       (<["research_topic" := PyDict (<["language" := PyStr "en"]> ∅)]>
          Examples.with_empty_topic)
     = pydantic.InputSchema_init Examples.strict
         (<["research_topic" := PyDict ∅]> Examples.with_empty_topic).
Proof.
  assert (H1 : "priority" ∉ InputSchema_fields).
  { unfold InputSchema_fields. rewrite list_elem_of_In. simpl. intuition discriminate. }
  assert (H2 : "language" ∉ ResearchTopic_fields).
  { unfold ResearchTopic_fields. rewrite list_elem_of_In. simpl. intuition discriminate. }
  split; [exact H1|]. split; [exact H2|].
  exact (X1_unknown_keys_are_ignored Examples.strict Examples.with_empty_topic ∅
           "priority" "language" (PyInt 1) (PyStr "en") H1 H2).
Defined.

(** X2. A request that gives nothing but a topic text is valid, and
    every other field takes its declared default: no context, depth
    comprehensive, no objective, no focus, five sources, citations on. *)
Theorem X2_defaults_of_a_minimal_request (C : Coercions) (t : string) :
  pydantic.InputSchema_init C {[ "research_topic" := PyDict {[ "topic" := PyStr t ]} ]}
  = inr {| schemas.research_topic :=
             {| schemas.topic := t; schemas.context := None;
                schemas.depth := Some "comprehensive";
                schemas.research_objective := None; schemas.specific_focus := None |};
           schemas.max_sources := Some 5%Z; schemas.include_citations := Some true |}.
Proof.
  unfold pydantic.InputSchema_init, pydantic.with_default.
  rewrite lookup_singleton_eq, !lookup_singleton_ne by discriminate.
  unfold pydantic.topic_field, pydantic.ResearchTopic_init,
    pydantic.required, pydantic.with_default.
  rewrite lookup_singleton_eq, !lookup_singleton_ne by discriminate.
  reflexivity.
Qed.

(** X3. [None] is a value of the optional field depth and is refused
    for topic. A topic dictionary with depth set to [None] is valid
    exactly when it is valid without the key, with the same error
    locations when it is not; the validated depth is then empty, where
    leaving the key out gives comprehensive. A topic set to [None] fails
    validation with an error at topic. *)
Theorem X3_None_clears_depth_and_is_no_topic (C : Coercions) (t : gmap string pyval) :
  match pydantic.ResearchTopic_init C (delete "depth" t) with
  | inr rt =>
      schemas.depth rt = Some "comprehensive"
      /\ pydantic.ResearchTopic_init C (<["depth" := PyNone]> t)
         = inr {| schemas.topic := schemas.topic rt;
                  schemas.context := schemas.context rt;
                  schemas.depth := None;
                  schemas.research_objective := schemas.research_objective rt;
                  schemas.specific_focus := schemas.specific_focus rt |}
  | inl locs => pydantic.ResearchTopic_init C (<["depth" := PyNone]> t) = inl locs
  end
  /\ exists rest,
       pydantic.ResearchTopic_init C (<["topic" := PyNone]> t) = inl (["topic"] :: rest).
Proof.
  split.
  - unfold pydantic.ResearchTopic_init, pydantic.required, pydantic.with_default.
    rewrite lookup_delete_eq, lookup_insert_eq.
    rewrite !lookup_delete_ne, !lookup_insert_ne by discriminate.
    simpl.
    destruct (t !! "topic" ≫= pydantic.str_field C) as [s|];
      destruct (match t !! "context" with
                | Some v => pydantic.optional (pydantic.str_field C) v
                | None => Some None
                end) as [c|];
      destruct (match t !! "research_objective" with
                | Some v => pydantic.optional (pydantic.str_field C) v
                | None => Some None
                end) as [o|];
      destruct (match t !! "specific_focus" with
                | Some v => pydantic.optional (pydantic.str_field C) v
                | None => Some None
                end) as [f|]; simpl; auto.
  - unfold pydantic.ResearchTopic_init, pydantic.required.
    rewrite lookup_insert_eq. simpl. eexists. reflexivity.
Qed.

(** X4. Keyword arguments of the declared types are taken as they are,
    the way the module's own entry point builds its request: a topic from
    three texts has exactly these and neither objective nor focus, whatever
    the depth text says; a request from a topic instance, an integer and a
    boolean holds exactly these three. *)
Theorem X4_typed_arguments_are_kept
    (C : Coercions) (t c d : string) (rt : ResearchTopic) (m : Z) (b : bool) :
  pydantic.ResearchTopic_init C
    (<["topic" := PyStr t]> (<["context" := PyStr c]> {[ "depth" := PyStr d ]}))
  = inr {| schemas.topic := t; schemas.context := Some c; schemas.depth := Some d;
           schemas.research_objective := None; schemas.specific_focus := None |}
  /\ pydantic.InputSchema_init C
       (<["research_topic" := PyTopic rt]>
          (<["max_sources" := PyInt m]> {[ "include_citations" := PyBool b ]}))
     = inr {| schemas.research_topic := rt; schemas.max_sources := Some m;
              schemas.include_citations := Some b |}.
Proof.
  split.
  - unfold pydantic.ResearchTopic_init, pydantic.required, pydantic.with_default.
    rewrite lookup_insert_eq.
    rewrite !(lookup_insert_ne _ "topic") by discriminate.
    rewrite lookup_insert_eq.
    rewrite !(lookup_insert_ne _ "context") by discriminate.
    rewrite lookup_singleton_eq, !lookup_singleton_ne by discriminate.
    reflexivity.
  - unfold pydantic.InputSchema_init, pydantic.with_default.
    rewrite lookup_insert_eq.
    rewrite !(lookup_insert_ne _ "research_topic") by discriminate.
    rewrite lookup_insert_eq.
    rewrite !(lookup_insert_ne _ "max_sources") by discriminate.
    rewrite lookup_singleton_eq.
    reflexivity.
Qed.

(** ** run.py: what a run depends on *)

Lemma init_from_boot (mr : AgentRunInput) :
  ResearcherAgent_init mr boot = (after_setup (researcher_of mr) boot, Ok (researcher_of mr)).
Proof. reflexivity. Qed.

Lemma run_from_boot (E : Env) (mr : AgentRunInput) :
  run E mr boot =
    match naptha_sdk.inputs mr with
    | InputsDict kw =>
        match pydantic.InputSchema_init (coercions E) kw with
        | inl locs =>
            (logged [EvValidate kw] (after_setup (researcher_of mr) boot),
             Raise (ValidationError locs))
        | inr p =>
            research E (researcher_of mr) (schemas.research_topic p)
                     (logged [EvValidate kw] (after_setup (researcher_of mr) boot))
        end
    | InputsModel p =>
        research E (researcher_of mr) (schemas.research_topic p)
                 (after_setup (researcher_of mr) boot)
    | InputsText _ =>
        (after_setup (researcher_of mr) boot, Raise (AttributeError "str" "research_topic"))
    | InputsNone =>
        (after_setup (researcher_of mr) boot,
         Raise (AttributeError "NoneType" "research_topic"))
    end.
Proof.
  unfold run, bind at 1. rewrite init_from_boot.
  destruct (naptha_sdk.inputs mr) as [kw|p|s|]; try reflexivity.
  cbv [bind emit]. fold (logged [EvValidate kw] (after_setup (researcher_of mr) boot)).
  destruct (pydantic.InputSchema_init (coercions E) kw) as [locs|p]; reflexivity.
Qed.

Lemma research_uses_the_agents_only
    (E : Env) (self self' : ResearcherAgent) (rt : ResearchTopic) (w : world) :
  keyword_researcher self = keyword_researcher self' ->
  search_analyst self = search_analyst self' ->
  insights_compiler self = insights_compiler self' ->
  research E self rt w = research E self' rt w.
Proof.
  intros H1 H2 H3. rewrite !research_eq.
  unfold crew_at, task_3_at, task_2_at, task_1_at. now rewrite H1, H2, H3.
Qed.

Lemma description_uses_the_prompt_fields_only (rt rt' : ResearchTopic) :
  same_prompt_fields rt rt' ->
  keyword_analysis_description rt = keyword_analysis_description rt'.
Proof.
  intros (H1 & H2 & H3). unfold keyword_analysis_description. now rewrite H1, H2, H3.
Qed.

Lemma research_uses_the_prompt_fields_only
    (E : Env) (self : ResearcherAgent) (rt rt' : ResearchTopic) (w : world) :
  same_prompt_fields rt rt' ->
  research E self rt w = research E self rt' w.
Proof.
  intros H. rewrite !research_eq.
  unfold crew_at, task_3_at, task_2_at, task_1_at.
  now rewrite (description_uses_the_prompt_fields_only rt rt' H).
Qed.

(** [research] started in two worlds whose clocks have been read equally
    often gives the same result and adds the same events. *)
Lemma research_in_any_world
    (E : Env) (self : ResearcherAgent) (rt : ResearchTopic) (w w' : world) :
  clock_reads w = clock_reads w' ->
  (research E self rt w).2 = (research E self rt w').2
  /\ exists added,
       trace (research E self rt w).1 = (trace w ++ added)%list
       /\ trace (research E self rt w').1 = (trace w' ++ added)%list.
Proof.
  intros Hc. rewrite !research_eq, <- Hc.
  destruct (kickoff E _) as [what|out].
  - split; [reflexivity|]. eexists. simpl. split; reflexivity.
  - unfold finish. destruct (shape_results out) as [r|e].
    + split; [reflexivity|]. eexists. simpl. split; reflexivity.
    + destruct (caught_by_except_Exception e).
      * split; [reflexivity|]. eexists. simpl. rewrite <- !app_assoc. split; reflexivity.
      * split; [reflexivity|]. eexists. simpl. split; reflexivity.
Qed.

Lemma research_allocates_nothing
    (E : Env) (self : ResearcherAgent) (rt : ResearchTopic) (w : world) :
  allocated (research E self rt w).1 = allocated w.
Proof.
  rewrite research_eq. destruct (kickoff E _) as [what|out]; [reflexivity|].
  unfold finish. destruct (shape_results out) as [r|e]; [reflexivity|].
  destruct (caught_by_except_Exception e); reflexivity.
Qed.

(** The world in which a run that kicks a crew off started [research]. *)
Lemma kickoff_from_boot (E : Env) (mr : AgentRunInput) (crew : Crew) :
  EvKickoff crew ∈ trace (run E mr boot).1 ->
  exists rt w,
    run E mr boot = research E (researcher_of mr) rt w
    /\ crew = crew_at (researcher_of mr) rt (clock E 0)
    /\ clock_reads w = 0
    /\ (w = after_setup (researcher_of mr) boot
        \/ exists kw, w = logged [EvValidate kw] (after_setup (researcher_of mr) boot)).
Proof.
  intros Hin.
  assert (Hres : forall rt w,
             run E mr boot = research E (researcher_of mr) rt w ->
             clock_reads w = 0 ->
             ~ EvKickoff crew ∈ trace w ->
             crew = crew_at (researcher_of mr) rt (clock E 0)).
  { intros rt w Hrun Hw Hnot.
    destruct (research_trace E (researcher_of mr) rt w) as (tail & Htr & Htail & _).
    rewrite Hrun, Htr, Hw in Hin.
    apply elem_of_app in Hin as [Hin|Hin]; [contradiction|].
    rewrite list_elem_of_In in Hin. simpl in Hin.
    destruct Hin as [H|[H|[H|[H|[H|H]]]]]; try discriminate H.
    - now injection H.
    - destruct Htail as [->|(e & ->)]; simpl in H; [contradiction|].
      destruct H as [H|[]]. discriminate H. }
  revert Hin Hres. rewrite run_from_boot.
  destruct (naptha_sdk.inputs mr) as [kw|p|s|].
  - destruct (pydantic.InputSchema_init (coercions E) kw) as [locs|p]; intros Hin Hres.
    + absent_from_trace Hin.
    + eexists _, _. split; [reflexivity|]. split; [|split; [reflexivity|eauto]].
      apply (Hres _ _ eq_refl eq_refl). intros H. absent_from_trace H.
  - intros Hin Hres. eexists _, _. split; [reflexivity|]. split; [|split; [reflexivity|eauto]].
    apply (Hres _ _ eq_refl eq_refl). intros H. absent_from_trace H.
  - intros Hin _. absent_from_trace Hin.
  - intros Hin _. absent_from_trace Hin.
Qed.

(** X5. The deployment descriptor and the consumer of the run input
    have no effect on a run: two run inputs with the same inputs give the
    same result and leave the same trace. *)
Theorem X5_only_the_inputs_matter (E : Env) (mr mr' : AgentRunInput) :
  naptha_sdk.inputs mr = naptha_sdk.inputs mr' ->
  run E mr boot = run E mr' boot.
Proof.
  intros H. rewrite !run_from_boot, H.
  destruct (naptha_sdk.inputs mr') as [kw|p|s|]; reflexivity.
Qed.

Lemma X5_only_the_inputs_matter_witness :
  naptha_sdk.inputs (Examples.request (InputsDict MoreExamples.detailed_kw))
  = naptha_sdk.inputs (MoreExamples.other_request (InputsDict MoreExamples.detailed_kw))
  /\ run (Examples.env (inr Examples.full_output))
         (Examples.request (InputsDict MoreExamples.detailed_kw)) boot
     = run (Examples.env (inr Examples.full_output))
           (MoreExamples.other_request (InputsDict MoreExamples.detailed_kw)) boot.
Proof.
  split; [reflexivity|].
  exact (X5_only_the_inputs_matter
           (Examples.env (inr Examples.full_output))
           (Examples.request (InputsDict MoreExamples.detailed_kw))
           (MoreExamples.other_request (InputsDict MoreExamples.detailed_kw)) eq_refl).
Defined.

(** X6. Of a request given as a model instance, a run uses the topic,
    the objective and the focus and nothing else: two instances that agree
    on these three give the same result and the same trace, whatever their
    context, depth, max_sources and include_citations. *)
Theorem X6_unused_request_fields
    (E : Env) (mr mr' : AgentRunInput) (p p' : InputSchema) :
  naptha_sdk.inputs mr = InputsModel p ->
  naptha_sdk.inputs mr' = InputsModel p' ->
  same_prompt_fields (schemas.research_topic p) (schemas.research_topic p') ->
  run E mr boot = run E mr' boot.
Proof.
  intros H H' Hsame. rewrite !run_from_boot, H, H'.
  rewrite (research_uses_the_prompt_fields_only E _ _ _ _ Hsame).
  now apply research_uses_the_agents_only.
Qed.

Lemma X6_unused_request_fields_witness :
  naptha_sdk.inputs (Examples.request (InputsModel Examples.bare_params))
  = InputsModel Examples.bare_params
  /\ naptha_sdk.inputs (Examples.request (InputsModel MoreExamples.detailed_params))
     = InputsModel MoreExamples.detailed_params
  /\ same_prompt_fields (schemas.research_topic Examples.bare_params)
                        (schemas.research_topic MoreExamples.detailed_params)
  /\ run (Examples.env (inr Examples.full_output))
         (Examples.request (InputsModel Examples.bare_params)) boot
     = run (Examples.env (inr Examples.full_output))
           (Examples.request (InputsModel MoreExamples.detailed_params)) boot.
Proof.
  assert (H : same_prompt_fields (schemas.research_topic Examples.bare_params)
                                 (schemas.research_topic MoreExamples.detailed_params))
    by (repeat split).
  split; [reflexivity|]. split; [reflexivity|]. split; [exact H|].
  exact (X6_unused_request_fields
           (Examples.env (inr Examples.full_output))
           (Examples.request (InputsModel Examples.bare_params))
           (Examples.request (InputsModel MoreExamples.detailed_params))
           Examples.bare_params MoreExamples.detailed_params eq_refl eq_refl H).
Defined.

(** X7. A request dictionary that passes validation runs as the
    validated instance would: the result is the same, and the trace is the
    same but for the one validation event that follows the setup. *)
Theorem X7_validated_dictionary_runs_as_its_model
    (E : Env) (mr mr' : AgentRunInput) (kw : gmap string pyval) (p : InputSchema) :
  naptha_sdk.inputs mr = InputsDict kw ->
  pydantic.InputSchema_init (coercions E) kw = inr p ->
  naptha_sdk.inputs mr' = InputsModel p ->
  (run E mr boot).2 = (run E mr' boot).2
  /\ exists before after,
       trace (run E mr boot).1 = (before ++ EvValidate kw :: after)%list
       /\ trace (run E mr' boot).1 = (before ++ after)%list
       /\ count is_validation after = 0.
Proof.
  intros H Hv H'. rewrite !run_from_boot, H, Hv, H'.
  change (research E (researcher_of mr') (schemas.research_topic p)
                   (after_setup (researcher_of mr') boot))
    with (research E (researcher_of mr) (schemas.research_topic p)
                   (after_setup (researcher_of mr) boot)).
  destruct (research_in_any_world E (researcher_of mr) (schemas.research_topic p)
              (logged [EvValidate kw] (after_setup (researcher_of mr) boot))
              (after_setup (researcher_of mr) boot) eq_refl)
    as (Hres & added & Ht & Ht').
  split; [exact Hres|].
  exists (setup_events (researcher_of mr)), added.
  rewrite Ht, Ht'. split; [|split]; try reflexivity.
  pose proof (research_adds_no_setup E (researcher_of mr) (schemas.research_topic p)
                (after_setup (researcher_of mr) boot) is_validation
                (fun _ => eq_refl) (fun _ => eq_refl) (fun _ => eq_refl)
                (fun _ => eq_refl)) as Hcount.
  rewrite Ht', count_app in Hcount. simpl in Hcount. lia.
Qed.

Lemma X7_validated_dictionary_runs_as_its_model_witness :
  naptha_sdk.inputs (Examples.request (InputsDict MoreExamples.detailed_kw))
  = InputsDict MoreExamples.detailed_kw
  /\ pydantic.InputSchema_init (coercions (Examples.env (inr Examples.full_output)))
       MoreExamples.detailed_kw = inr MoreExamples.detailed_params
  /\ naptha_sdk.inputs (Examples.request (InputsModel MoreExamples.detailed_params))
     = InputsModel MoreExamples.detailed_params
  /\ (run (Examples.env (inr Examples.full_output))
          (Examples.request (InputsDict MoreExamples.detailed_kw)) boot).2
     = (run (Examples.env (inr Examples.full_output))
            (Examples.request (InputsModel MoreExamples.detailed_params)) boot).2.
Proof.
  assert (Hv : pydantic.InputSchema_init (coercions (Examples.env (inr Examples.full_output)))
                 MoreExamples.detailed_kw = inr MoreExamples.detailed_params)
    by reflexivity.
  split; [reflexivity|]. split; [exact Hv|]. split; [reflexivity|].
  exact (proj1 (X7_validated_dictionary_runs_as_its_model
                  (Examples.env (inr Examples.full_output))
                  (Examples.request (InputsDict MoreExamples.detailed_kw))
                  (Examples.request (InputsModel MoreExamples.detailed_params))
                  MoreExamples.detailed_kw MoreExamples.detailed_params
                  eq_refl Hv eq_refl)).
Defined.

(** ** run.py: how a run ends *)

(** X8. A failure of the crew ends the run with that failure: when
    [crew.kickoff()] raises, [run] raises the same, nothing is logged and
    no result is returned; the three tasks had been built and the crew was
    kicked off once. *)
Theorem X8_stage_failure_ends_the_run
    (E : Env) (mr : AgentRunInput) (crew : Crew) (what : string) :
  EvKickoff crew ∈ trace (run E mr boot).1 ->
  kickoff E crew = inl what ->
  (run E mr boot).2 = Raise (StageExecutionError what)
  /\ count is_logged_error (trace (run E mr boot).1) = 0
  /\ count is_task_init (trace (run E mr boot).1) = 3
  /\ count is_kickoff (trace (run E mr boot).1) = 1.
Proof.
  intros Hin Hk.
  destruct (kickoff_from_boot E mr crew Hin) as (rt & w & Hrun & -> & Hc & Hw).
  rewrite Hrun, research_eq, Hc, Hk. simpl.
  rewrite !count_app.
  destruct Hw as [->|(kw & ->)]; repeat split; reflexivity.
Qed.

Lemma X8_stage_failure_ends_the_run_witness :
  EvKickoff (crew_at Examples.researcher Examples.bare_topic Examples.a_saturday_morning)
    ∈ trace (run MoreExamples.failing
                 (Examples.request (InputsModel Examples.bare_params)) boot).1
  /\ kickoff MoreExamples.failing
       (crew_at Examples.researcher Examples.bare_topic Examples.a_saturday_morning)
     = inl "search tool timed out"
  /\ (run MoreExamples.failing (Examples.request (InputsModel Examples.bare_params)) boot).2
     = Raise (StageExecutionError "search tool timed out").
Proof.
  assert (Hin : EvKickoff (crew_at Examples.researcher Examples.bare_topic
                                   Examples.a_saturday_morning)
                ∈ trace (run MoreExamples.failing
                             (Examples.request (InputsModel Examples.bare_params)) boot).1).
  { apply list_elem_of_In. vm_compute. do 11 right. left. reflexivity. }
  split; [exact Hin|]. split; [reflexivity|].
  exact (proj1 (X8_stage_failure_ends_the_run _ _ _ _ Hin eq_refl)).
Defined.

(** X9. A crew output that has no [get], such as text, always takes
    the recovery path: [run] returns the three empty mappings, and the one
    error logged is the AttributeError for [get]. *)
Theorem X9_output_without_get_gives_empty_results
    (E : Env) (mr : AgentRunInput) (crew : Crew) (cls : string) :
  EvKickoff crew ∈ trace (run E mr boot).1 ->
  kickoff E crew = inr (OutOpaque cls) ->
  (run E mr boot).2 = Ok empty_results
  /\ EvLogError (AttributeError cls "get") ∈ trace (run E mr boot).1
  /\ count is_logged_error (trace (run E mr boot).1) = 1.
Proof.
  intros Hin Hk.
  destruct (kickoff_from_boot E mr crew Hin) as (rt & w & Hrun & -> & Hc & Hw).
  rewrite Hrun, research_eq, Hc, Hk. unfold finish. simpl.
  split; [reflexivity|]. split.
  - rewrite list_elem_of_In, !in_app_iff. simpl. tauto.
  - rewrite !count_app. destruct Hw as [->|(kw & ->)]; reflexivity.
Qed.

Lemma X9_output_without_get_gives_empty_results_witness :
  EvKickoff (crew_at Examples.researcher Examples.bare_topic Examples.a_saturday_morning)
    ∈ trace (run MoreExamples.opaque
                 (Examples.request (InputsModel Examples.bare_params)) boot).1
  /\ kickoff MoreExamples.opaque
       (crew_at Examples.researcher Examples.bare_topic Examples.a_saturday_morning)
     = inr (OutOpaque "str")
  /\ (run MoreExamples.opaque (Examples.request (InputsModel Examples.bare_params)) boot).2
     = Ok empty_results.
Proof.
  assert (Hin : EvKickoff (crew_at Examples.researcher Examples.bare_topic
                                   Examples.a_saturday_morning)
                ∈ trace (run MoreExamples.opaque
                             (Examples.request (InputsModel Examples.bare_params)) boot).1).
  { apply list_elem_of_In. vm_compute. do 11 right. left. reflexivity. }
  split; [exact Hin|]. split; [reflexivity|].
  exact (proj1 (X9_output_without_get_gives_empty_results _ _ _ _ Hin eq_refl)).
Defined.

(** X10. The recovery path is for what derives from [Exception] only:
    when reading the crew output raises something that does not, [run]
    raises it, logs nothing and returns no result. *)
Theorem X10_other_exceptions_pass_through
    (E : Env) (mr : AgentRunInput) (crew : Crew) (out : crew_output) (e : exn) :
  EvKickoff crew ∈ trace (run E mr boot).1 ->
  kickoff E crew = inr out ->
  shape_results out = Raise e ->
  caught_by_except_Exception e = false ->
  (run E mr boot).2 = Raise e
  /\ count is_logged_error (trace (run E mr boot).1) = 0.
Proof.
  intros Hin Hk Hs Hc.
  destruct (kickoff_from_boot E mr crew Hin) as (rt & w & Hrun & -> & Hr & Hw).
  rewrite Hrun, research_eq, Hr, Hk. unfold finish. rewrite Hs, Hc. simpl.
  split; [reflexivity|].
  rewrite !count_app. destruct Hw as [->|(kw & ->)]; reflexivity.
Qed.

Lemma X10_other_exceptions_pass_through_witness :
  EvKickoff (crew_at Examples.researcher Examples.bare_topic Examples.a_saturday_morning)
    ∈ trace (run (Examples.env (inr MoreExamples.interrupted))
                 (Examples.request (InputsModel Examples.bare_params)) boot).1
  /\ kickoff (Examples.env (inr MoreExamples.interrupted))
       (crew_at Examples.researcher Examples.bare_topic Examples.a_saturday_morning)
     = inr MoreExamples.interrupted
  /\ shape_results MoreExamples.interrupted = Raise (Raised "KeyboardInterrupt" false)
  /\ caught_by_except_Exception (Raised "KeyboardInterrupt" false) = false
  /\ (run (Examples.env (inr MoreExamples.interrupted))
          (Examples.request (InputsModel Examples.bare_params)) boot).2
     = Raise (Raised "KeyboardInterrupt" false).
Proof.
  assert (Hin : EvKickoff (crew_at Examples.researcher Examples.bare_topic
                                   Examples.a_saturday_morning)
                ∈ trace (run (Examples.env (inr MoreExamples.interrupted))
                             (Examples.request (InputsModel Examples.bare_params)) boot).1).
  { apply list_elem_of_In. vm_compute. do 11 right. left. reflexivity. }
  split; [exact Hin|]. split; [reflexivity|]. split; [reflexivity|]. split; [reflexivity|].
  exact (proj1 (X10_other_exceptions_pass_through _ _ _ _ _ Hin eq_refl eq_refl eq_refl)).
Defined.

(** X11. What every run does and how often. Three tool clients, one
    language model and three Roles are built, from four allocations; the
    request is validated once if it is a dictionary and not at all
    otherwise. Then either the run stops before the pipeline (no clock
    read, no task, no kickoff, nothing logged, no result), or it reads the
    clock once, builds three tasks, kicks the crew off exactly once and
    logs at most one error: no stage is ever tried again. *)
Theorem X11_what_a_run_does (E : Env) (mr : AgentRunInput) :
  count is_tool_init (trace (run E mr boot).1) = 3
  /\ count is_llm_init (trace (run E mr boot).1) = 1
  /\ count is_agent_init (trace (run E mr boot).1) = 3
  /\ allocated (run E mr boot).1 = 4
  /\ count is_validation (trace (run E mr boot).1)
     = (if is_dict (naptha_sdk.inputs mr) then 1 else 0)
  /\ ((count is_clock_read (trace (run E mr boot).1) = 0
       /\ count is_task_init (trace (run E mr boot).1) = 0
       /\ count is_kickoff (trace (run E mr boot).1) = 0
       /\ count is_logged_error (trace (run E mr boot).1) = 0
       /\ returns (run E mr boot).2 = false)
      \/ (count is_clock_read (trace (run E mr boot).1) = 1
          /\ count is_task_init (trace (run E mr boot).1) = 3
          /\ count is_kickoff (trace (run E mr boot).1) = 1
          /\ count is_logged_error (trace (run E mr boot).1) <= 1)).
Proof.
  assert (Hres : forall rt w,
             clock_reads w = 0 ->
             count is_clock_read (trace w) = 0 -> count is_task_init (trace w) = 0 ->
             count is_kickoff (trace w) = 0 -> count is_logged_error (trace w) = 0 ->
             let t := trace (research E (researcher_of mr) rt w).1 in
             count is_tool_init t = count is_tool_init (trace w)
             /\ count is_llm_init t = count is_llm_init (trace w)
             /\ count is_agent_init t = count is_agent_init (trace w)
             /\ count is_validation t = count is_validation (trace w)
             /\ count is_clock_read t = 1 /\ count is_task_init t = 3
             /\ count is_kickoff t = 1 /\ count is_logged_error t <= 1).
  { intros rt w Hw H1 H2 H3 H4 t. unfold t.
    rewrite !research_adds_no_setup by reflexivity.
    destruct (research_trace E (researcher_of mr) rt w) as (tail & -> & Htail & _).
    rewrite !count_app, H1, H2, H3, H4.
    destruct Htail as [->|(e & ->)]; simpl; repeat split; lia. }
  rewrite run_from_boot.
  destruct (naptha_sdk.inputs mr) as [kw|p|s|]; simpl is_dict; cbv iota.
  - destruct (pydantic.InputSchema_init (coercions E) kw) as [locs|p].
    + simpl. repeat split. left. repeat split.
    + rewrite research_allocates_nothing.
      match goal with |- context [research E _ ?rt ?w] =>
        destruct (Hres rt w) as (-> & -> & -> & -> & Hrest); try reflexivity
      end.
      simpl. repeat split. right. exact Hrest.
  - rewrite research_allocates_nothing.
    match goal with |- context [research E _ ?rt ?w] =>
      destruct (Hres rt w) as (-> & -> & -> & -> & Hrest); try reflexivity
    end.
    simpl. repeat split. right. exact Hrest.
  - simpl. repeat split. left. repeat split.
  - simpl. repeat split. left. repeat split.
Qed.

(** ** run.py: the crew that is kicked off *)

(** X12. The crew of every run lists its agents in the order of the
    tasks they are assigned to; each agent is verbose, holds the one
    search tool as its only tool and shares the one language model. The
    file-read and file-write clients are built in every run and given to
    no agent. *)
Theorem X12_wiring_of_the_crew (E : Env) (mr : AgentRunInput) (crew : Crew) :
  EvKickoff crew ∈ trace (run E mr boot).1 ->
  agents crew = map agent (tasks crew)
  /\ (forall a, a ∈ agents crew ->
        tools a = [{| tool_addr := 0; tool_is := SerperDevTool |}]
        /\ llm a = {| llm_addr := 3; model_name := "gpt-4o"; temperature := 7 # 10 |}
        /\ verbose a = true)
  /\ EvTool {| tool_addr := 1; tool_is := FileReadTool |} ∈ trace (run E mr boot).1
  /\ EvTool {| tool_addr := 2; tool_is := FileWriteTool |} ∈ trace (run E mr boot).1.
Proof.
  intros Hin.
  destruct (kickoff_from_boot E mr crew Hin) as (rt & w & Hrun & -> & Hc & Hw).
  split; [reflexivity|]. split.
  - intros a Ha. rewrite list_elem_of_In in Ha. simpl in Ha.
    destruct Ha as [<-|[<-|[<-|[]]]]; repeat split.
  - rewrite Hrun.
    destruct (research_trace E (researcher_of mr) rt w) as (tail & -> & _ & _).
    rewrite !list_elem_of_In, !in_app_iff.
    destruct Hw as [->|(kw & ->)]; simpl; tauto.
Qed.

Lemma X12_wiring_of_the_crew_witness :
  EvKickoff (crew_at Examples.researcher Examples.bare_topic Examples.a_saturday_morning)
    ∈ trace (run (Examples.env (inr Examples.full_output))
                 (Examples.request (InputsModel Examples.bare_params)) boot).1
  /\ agents (crew_at Examples.researcher Examples.bare_topic Examples.a_saturday_morning)
     = map agent
         (tasks (crew_at Examples.researcher Examples.bare_topic
                         Examples.a_saturday_morning)).
Proof.
  assert (Hin : EvKickoff (crew_at Examples.researcher Examples.bare_topic
                                   Examples.a_saturday_morning)
                ∈ trace (run (Examples.env (inr Examples.full_output))
                             (Examples.request (InputsModel Examples.bare_params)) boot).1).
  { apply list_elem_of_In. vm_compute. do 11 right. left. reflexivity. }
  split; [exact Hin|].
  exact (proj1 (X12_wiring_of_the_crew _ _ _ Hin)).
Defined.

(** ** run.py: timestamps and artifact paths *)

(** X13. The timestamp keeps the second it was taken at: read back, the
    text [strftime] prints for a date with a four-digit year gives that
    date again, so two such dates print the same timestamp only if they
    are the same second. *)
Theorem X13_timestamp_reads_back (d d' : datetime) :
  datetime.plausible d ->
  datetime.plausible d' ->
  read_timestamp (datetime.strftime d) = d
  /\ (datetime.strftime d = datetime.strftime d' -> d = d').
Proof.
  intros Hd Hd'. split; [now apply timestamp_reads_back|].
  now apply strftime_tells_seconds_apart.
Qed.

Lemma X13_timestamp_reads_back_witness :
  datetime.plausible Examples.a_saturday_morning
  /\ datetime.plausible MoreExamples.one_second_later
  /\ read_timestamp (datetime.strftime Examples.a_saturday_morning)
     = Examples.a_saturday_morning.
Proof.
  assert (H : datetime.plausible Examples.a_saturday_morning)
    by (unfold datetime.plausible; simpl; lia).
  assert (H' : datetime.plausible MoreExamples.one_second_later)
    by (unfold datetime.plausible; simpl; lia).
  split; [exact H|]. split; [exact H'|].
  exact (proj1 (X13_timestamp_reads_back _ _ H H')).
Defined.

Lemma length_of_append (a b : string) :
  String.length (a +:+ b) = String.length a + String.length b.
Proof.
  induction a as [|x a IH]; [reflexivity|].
  rewrite append_cons. simpl. now rewrite IH.
Qed.

Lemma append_cancel_r (a b c : string) : a +:+ c = b +:+ c -> a = b.
Proof.
  revert b. induction a as [|x a IH]; intros [|y b] H.
  - reflexivity.
  - apply (f_equal String.length) in H. rewrite !length_of_append in H.
    simpl in H. lia.
  - apply (f_equal String.length) in H. rewrite !length_of_append in H.
    simpl in H. lia.
  - rewrite !append_cons in H. injection H as -> H. f_equal. now apply IH.
Qed.

Lemma artifact_keeps_the_timestamp (stage ts ts' : string) :
  artifact stage ts = artifact stage ts' -> ts = ts'.
Proof.
  unfold artifact. intros H.
  do 3 apply String.app_inj in H.
  now apply append_cancel_r in H.
Qed.

Lemma output_files_eq (E : Env) (self : ResearcherAgent) (rt : ResearchTopic) (w : world) :
  output_files E self rt w
  = [artifact "keyword_analysis" (datetime.strftime (clock E (clock_reads w)));
     artifact "search_analysis" (datetime.strftime (clock E (clock_reads w)));
     artifact "final_recommendations" (datetime.strftime (clock E (clock_reads w)))].
Proof. unfold output_files. now rewrite create_tasks_eq. Qed.

(** Two artifact paths are told apart by the first letter of the stage
    name, or else carry the same timestamp. *)
Ltac same_path H :=
  first [ apply (f_equal (String.get 13)) in H; lazy in H; discriminate H
        | apply artifact_keeps_the_timestamp in H ].

(** X14. The artifact paths depend on the second the clock shows and on
    nothing else. The three paths of one pipeline differ from each other;
    two pipelines, whatever their topics and agents, get the same three
    paths exactly when their clocks show the same second, and when the
    seconds differ they have no path in common. *)
Theorem X14_paths_are_named_by_the_second
    (E E' : Env) (self self' : ResearcherAgent) (rt rt' : ResearchTopic) (w w' : world) :
  datetime.plausible (clock E (clock_reads w)) ->
  datetime.plausible (clock E' (clock_reads w')) ->
  NoDup (output_files E self rt w)
  /\ (output_files E self rt w = output_files E' self' rt' w'
      <-> clock E (clock_reads w) = clock E' (clock_reads w'))
  /\ (clock E (clock_reads w) <> clock E' (clock_reads w') ->
      forall f, f ∈ output_files E self rt w -> f ∉ output_files E' self' rt' w').
Proof.
  intros Hd Hd'. rewrite !output_files_eq.
  set (d := clock E (clock_reads w)) in *. set (d' := clock E' (clock_reads w')) in *.
  assert (Hinj : datetime.strftime d = datetime.strftime d' -> d = d')
    by apply (strftime_tells_seconds_apart d d' Hd Hd').
  split; [|split].
  - repeat (apply NoDup_cons; split); try apply NoDup_nil_2;
      rewrite list_elem_of_In; simpl; intros H;
      repeat (destruct H as [H|H]; [same_path H|]); exact H.
  - split.
    + intros H. apply (f_equal (fun l => nth 0 l EmptyString)) in H. simpl in H.
      same_path H. now apply Hinj.
    + now intros ->.
  - intros Hne f Hf Hf'. rewrite list_elem_of_In in Hf, Hf'. simpl in Hf, Hf'.
    destruct Hf as [<-|[<-|[<-|[]]]];
      destruct Hf' as [H|[H|[H|[]]]]; same_path H; apply Hne; now apply Hinj.
Qed.

Lemma X14_paths_are_named_by_the_second_witness :
  datetime.plausible
    (clock (MoreExamples.at_time Examples.a_saturday_morning) (clock_reads boot))
  /\ datetime.plausible
       (clock (MoreExamples.at_time MoreExamples.one_second_later) (clock_reads boot))
  /\ NoDup (output_files (MoreExamples.at_time Examples.a_saturday_morning)
                         Examples.researcher Examples.bare_topic boot).
Proof.
  assert (H : datetime.plausible
                (clock (MoreExamples.at_time Examples.a_saturday_morning) (clock_reads boot)))
    by (unfold datetime.plausible; simpl; lia).
  assert (H' : datetime.plausible
                 (clock (MoreExamples.at_time MoreExamples.one_second_later)
                        (clock_reads boot)))
    by (unfold datetime.plausible; simpl; lia).
  split; [exact H|]. split; [exact H'|].
  exact (proj1 (X14_paths_are_named_by_the_second
                  (MoreExamples.at_time Examples.a_saturday_morning)
                  (MoreExamples.at_time MoreExamples.one_second_later)
                  Examples.researcher Examples.researcher
                  Examples.bare_topic Examples.bare_topic boot boot H H')).
Defined.

Example paths_one_second_apart :
  output_files (MoreExamples.at_time Examples.a_saturday_morning)
               Examples.researcher Examples.bare_topic boot
  = ["output-files/keyword_analysis_20240309_080559.md";
     "output-files/search_analysis_20240309_080559.md";
     "output-files/final_recommendations_20240309_080559.md"]
  /\ output_files (MoreExamples.at_time MoreExamples.one_second_later)
                  Examples.researcher Examples.bare_topic boot
     = ["output-files/keyword_analysis_20240309_080600.md";
        "output-files/search_analysis_20240309_080600.md";
        "output-files/final_recommendations_20240309_080600.md"].
Proof. split; reflexivity. Qed.

(** ** run.py: the prompts *)

Lemma starts_with_before (p a s : string) :
  Text.starts_with p a = true -> Text.starts_with p (a +:+ s) = true.
Proof.
  revert a. induction p as [|x p IH]; intros a H; [reflexivity|].
  destruct a as [|y a]; [discriminate H|].
  rewrite append_cons. simpl in *.
  destruct (Ascii.eqb x y); [now apply IH | discriminate H].
Qed.

Lemma starts_with_self (p : string) : Text.starts_with p p = true.
Proof. induction p as [|x p IH]; [reflexivity|]. simpl. now rewrite Ascii.eqb_refl. Qed.

Lemma contains_before (p a s : string) :
  Text.contains p a = true -> Text.contains p (a +:+ s) = true.
Proof.
  induction a as [|y a IH]; intros H.
  - destruct p; [now destruct s | discriminate H].
  - rewrite append_cons. simpl in *.
    apply orb_true_iff in H as [H|H].
    + change (String y (a +:+ s)) with (String y a +:+ s).
      now rewrite (starts_with_before p (String y a) s H).
    + rewrite (IH H). apply orb_true_r.
Qed.

Lemma contains_itself (p : string) : Text.contains p p = true.
Proof. destruct p as [|x p]; [reflexivity|]. simpl. now rewrite Ascii.eqb_refl, starts_with_self. Qed.

(** X15. The first stage's prompt shows the request text as it is: the
    topic stands between quotation marks after TOPIC:, and an objective
    or a focus that is given stands the same way after its label, with no
    escaping of what the text contains. The prompts of the second and
    third stage are the same for every request. *)
Theorem X15_prompt_shows_the_request_as_it_is
    (E : Env) (self : ResearcherAgent) (rt : ResearchTopic) (w : world) :
  exists t1 t2 t3,
    (create_tasks E self rt w).2 = Ok [t1; t2; t3]
    /\ Text.contains ("TOPIC: " +:+ Text.dq +:+ schemas.topic rt +:+ Text.dq)
                     (description t1) = true
    /\ (forall o, schemas.research_objective rt = Some o ->
          Text.contains ("RESEARCH OBJECTIVE: " +:+ Text.dq +:+ o +:+ Text.dq)
                        (description t1) = true)
    /\ (forall f, schemas.specific_focus rt = Some f ->
          Text.contains ("SPECIFIC FOCUS: " +:+ Text.dq +:+ f +:+ Text.dq)
                        (description t1) = true)
    /\ description t2 = search_analysis_description
    /\ description t3 = final_recommendations_description.
Proof.
  rewrite create_tasks_eq. set (d := clock E (clock_reads w)).
  exists (task_1_at self rt d), (task_2_at self rt d), (task_3_at self rt d).
  split; [reflexivity|].
  change (description (task_1_at self rt d)) with (keyword_analysis_description rt).
  destruct (description_shows_optional_fields rt) as (after & H).
  split; [|split; [|split; [|split; reflexivity]]].
  - rewrite H. apply contains_before. unfold line.
    do 2 apply contains_later. apply contains_before.
    apply contains_later, contains_before, contains_itself.
  - intros o Ho. rewrite H, Ho. apply contains_middle.
  - intros f Hf. rewrite H, Hf. do 3 apply contains_later. apply contains_here.
Qed.

(** ** run.py: importing the module *)

Lemma truthy_iff (v : option string) :
  startup.truthy v = true <-> exists c s, v = Some (String c s).
Proof.
  destruct v as [[|c s]|]; simpl; split; try discriminate; eauto.
  - intros (c & s & H). discriminate H.
  - intros (c & s & H). discriminate H.
Qed.

(** X16. Importing the module reports on the two keys without showing
    them. A variable that the process environment already has keeps its
    value, even an empty one, and the .env file supplies the others. Each
    of the two printed lines ends in True or False and in nothing else:
    True exactly when the key then has a value that is not the empty
    text. *)
Theorem X16_import_reports_keys_as_booleans (dotenv environ : gmap string string) :
  (forall k v, environ !! k = Some v -> (startup.import_module dotenv environ).1 !! k = Some v)
  /\ (forall k, environ !! k = None ->
        (startup.import_module dotenv environ).1 !! k = dotenv !! k)
  /\ exists openai serper : bool,
       (startup.import_module dotenv environ).2
       = ["OpenAI Key loaded: " +:+ startup.str_of_bool openai +:+ Text.nl;
          "Serper Key loaded: " +:+ startup.str_of_bool serper +:+ Text.nl]
       /\ (openai = true <->
           exists c s, (startup.import_module dotenv environ).1 !! "OPENAI_API_KEY"
                       = Some (String c s))
       /\ (serper = true <->
           exists c s, (startup.import_module dotenv environ).1 !! "SERPER_API_KEY"
                       = Some (String c s)).
Proof.
  unfold startup.import_module, startup.load_dotenv. simpl.
  split; [|split].
  - intros k v H. now apply lookup_union_Some_l.
  - intros k H. now apply lookup_union_r.
  - eexists _, _. split; [reflexivity|].
    split; apply truthy_iff.
Qed.

Example an_empty_variable_hides_the_file :
  (startup.import_module MoreExamples.dotenv MoreExamples.environ).2
  = ["OpenAI Key loaded: False" +:+ Text.nl; "Serper Key loaded: False" +:+ Text.nl].
Proof. reflexivity. Qed.
